(** * golang.db.model: schema reconciliation and component sync

    A shallow embedding of the Go package [model] (field model, type
    mapper, validator, schema introspection, schema reconciler, component
    cache sync) and the properties of its specification.

    Conventions of the embedding:
    - a Go [string] is a Rocq [string] (a sequence of bytes); a Go [int] or
      [int64] is a [Z];
    - a Go map is a stdpp [gmap]; where the code ranges over a map the
      model ranges over [map_to_list], one of the orders Go may choose;
    - a method of [meta] is a function from a [State] to an [Outcome]: it
      returns, or it panics ([Panicked]); the panics of the validator are
      values of [ValidationError]; an [error] result is its message;
    - the functions of Go's standard library whose behaviour depends on
      Unicode tables or on parsers that are not part of this package are
      the fields of the class [GoLib]; [fmt.Scanln] of one string, which
      needs the decoding of UTF-8 and a table of ten ranges only, is
      defined; the database is a type with the operations of the class
      [Database]. *)

From Stdlib Require Import ZArith String Ascii List Bool Lia.
From stdpp Require Import gmap strings list fin_maps pretty.

Open Scope string_scope.
Open Scope Z_scope.

(* ===================================================================== *)
(** * 1. Go values and the standard library                              *)
(* ===================================================================== *)

(** The dynamic values held by an [any]: what the SQL driver hands back
    after [Fetch] turned [[]byte] into [string], and what a decoded JSON
    component holds.  [float64], [time.Time] and nested objects are left
    out of the model. *)
Inductive any :=
  | AStr (s : string)
  | AInt64 (z : Z)
  | ABool (b : bool)
  | ANil.

#[global] Instance any_eq_dec : EqDecision any.
Proof. solve_decision. Defined.

Definition any_encode (a : any) : string + (Z + (bool + unit)) :=
  match a with
  | AStr s => inl s
  | AInt64 z => inr (inl z)
  | ABool b => inr (inr (inl b))
  | ANil => inr (inr (inr tt))
  end.

Definition any_decode (x : string + (Z + (bool + unit))) : any :=
  match x with
  | inl s => AStr s
  | inr (inl z) => AInt64 z
  | inr (inr (inl b)) => ABool b
  | inr (inr (inr _)) => ANil
  end.

#[global] Instance any_countable : Countable any.
Proof.
  apply (inj_countable' any_encode any_decode).
  intros []; reflexivity.
Defined.

(** [fmt.Sprint(v)] and [fmt.Sprintf("%v", v)] for one operand. *)
Definition Sprint (v : any) : string :=
  match v with
  | AStr s => s
  | AInt64 z => pretty z
  | ABool true => "true"
  | ABool false => "false"
  | ANil => "<nil>"
  end.

(** Go errors are carried as their message. *)
Definition error := string.

(** What is taken from Go's standard library without a definition. *)
Class GoLib := {
  (** [strings.ToUpper] *)
  strings_ToUpper : string -> string;
  (** [strings.TrimSpace] *)
  strings_TrimSpace : string -> string;
  (** the runes [for _, r := range s] yields *)
  utf8_runes : string -> list Z;
  (** [unicode.IsLetter], [unicode.IsDigit] *)
  unicode_IsLetter : Z -> bool;
  unicode_IsDigit : Z -> bool;
  (** [strconv.ParseFloat(val, 64)] returns a nil error *)
  strconv_ParseFloat_ok : string -> bool;
  (** [time.Parse(layout, val)] returns a nil error *)
  time_Parse_ok : string -> string -> bool;
  (** [json.Unmarshal([]byte(val), &js)] into a [json.RawMessage] returns
      a nil error *)
  json_Unmarshal_ok : string -> bool
}.

(** ** Byte-level string functions, defined *)

Definition is_upper_AZ (c : ascii) : bool :=
  let n := N_of_ascii c in ((65 <=? n) && (n <=? 90))%N.

Definition is_lower_az (c : ascii) : bool :=
  let n := N_of_ascii c in ((97 <=? n) && (n <=? 122))%N.

Definition is_digit_09 (c : ascii) : bool :=
  let n := N_of_ascii c in ((48 <=? n) && (n <=? 57))%N.

Definition ascii_upper (c : ascii) : ascii :=
  if is_lower_az c then ascii_of_N (N_of_ascii c - 32) else c.

Definition ascii_lower (c : ascii) : ascii :=
  if is_upper_AZ c then ascii_of_N (N_of_ascii c + 32) else c.

Fixpoint map_string (f : ascii -> ascii) (s : string) : string :=
  match s with
  | EmptyString => EmptyString
  | String c r => String (f c) (map_string f r)
  end.

(** [strings.ToLower] on a string of ASCII bytes (the package applies it
    to the constants of the type mapper only). *)
Definition strings_ToLower (s : string) : string := map_string ascii_lower s.

(** [strings.HasPrefix(s, p)] *)
Definition strings_HasPrefix (s p : string) : bool := String.prefix p s.

(** [strings.Split(s, sep)[0]] for a one-byte separator: the text before
    the first occurrence of [sep], the whole of [s] when there is none. *)
Fixpoint split_head (sep : ascii) (s : string) : string :=
  match s with
  | EmptyString => EmptyString
  | String c r => if Ascii.eqb c sep then EmptyString else String c (split_head sep r)
  end.

(** [strings.Join(l, sep)] *)
Fixpoint strings_Join (l : list string) (sep : string) : string :=
  match l with
  | [] => ""
  | [x] => x
  | x :: r => x +:+ sep +:+ strings_Join r sep
  end.

(** ** [strconv.Atoi] *)

Inductive NumError := ErrSyntax | ErrRange.

Definition maxInt64 : Z := 9223372036854775807.
Definition minInt64 : Z := -9223372036854775808.

(** The value of a run of decimal digits, [None] when a byte is not a
    digit. *)
Fixpoint digits_value (acc : Z) (s : string) : option Z :=
  match s with
  | EmptyString => Some acc
  | String c r =>
      if is_digit_09 c
      then digits_value (10 * acc + (Z.of_N (N_of_ascii c) - 48)) r
      else None
  end.

(** [strconv.Atoi(s)]: an optional sign, then at least one decimal digit;
    the value with a nil error, 0 with a syntax error, or the nearest
    bound with a range error. *)
Definition Atoi (s : string) : Z * option NumError :=
  let '(neg, body) :=
    match s with
    | String "-" r => (true, r)
    | String "+" r => (false, r)
    | _ => (false, s)
    end in
  match body with
  | EmptyString => (0, Some ErrSyntax)
  | _ =>
      match digits_value 0 body with
      | None => (0, Some ErrSyntax)
      | Some n =>
          let v := if neg then - n else n in
          if v <? minInt64 then (minInt64, Some ErrRange)
          else if maxInt64 <? v then (maxInt64, Some ErrRange)
          else (v, None)
      end
  end.

(** The message of the error [strconv.Atoi] returns (the quotes Go puts
    around the operand are left out). *)
Definition Atoi_error (s : string) (e : NumError) : error :=
  "strconv.Atoi: parsing " +:+ s +:+
  match e with
  | ErrSyntax => ": invalid syntax"
  | ErrRange => ": value out of range"
  end.

(* ===================================================================== *)
(** * 2. Field model                                                      *)
(* ===================================================================== *)

(** The constants of [FieldTypes] ([ddl.go]); [Set] is spelled [Set_]. *)
Module FieldTypes.
Inductive fieldType :=
  | String | Text | VarChar | Int | Float | Decimal | Bool
  | Date | Time | Timestamp | JSON | Enum | Binary | UUID | TinyInt
  | SmallInt | MediumInt | BigInt | Double | Real | Char
  | LongText | MediumText | TinyText
  | Blob | TinyBlob | MediumBlob | LongBlob
  | Set_ | Year | Geometry | Point | LineString | Polygon.

Definition all : list fieldType :=
  [ String; Text; VarChar; Int; Float; Decimal; Bool;
    Date; Time; Timestamp; JSON; Enum; Binary; UUID; TinyInt;
    SmallInt; MediumInt; BigInt; Double; Real; Char;
    LongText; MediumText; TinyText;
    Blob; TinyBlob; MediumBlob; LongBlob;
    Set_; Year; Geometry; Point; LineString; Polygon ].
End FieldTypes.

Abbreviation fieldType := FieldTypes.fieldType.

#[global] Instance fieldType_eq_dec : EqDecision fieldType.
Proof. solve_decision. Defined.

(** [index] of [Field]. *)
Record index := {
  PrimaryKey : bool;
  Unique : bool;
  Index : bool;
  FullText : bool;
  Spatial : bool
}.

Record foreignKey := {
  referenceTable : string;
  referenceColumn : string;
  onDelete : string;
  onUpdate : string
}.

(** [Field].  [definition] is a slice that may be nil: [None] is the nil
    slice, [Some []] a slice of length 0.  The older sources spell the
    fields [Type], [Length], [Nullable], [Definition], [DefaultValue],
    [AutoIncrement], [Index]. *)
Record Field := {
  name : string;
  t : fieldType;
  lenth : Z;
  nullable : bool;
  definition : option (list any);
  defaultValue : string;
  autoIncrement : bool;
  index_ : index;
  table_name : string;
  fk : option foreignKey
}.

(** [len(f.definition)] read as a list. *)
Definition definition_values (f : Field) : list any :=
  match definition f with Some l => l | None => [] end.

(** [CreateField()] *)
Definition CreateField : Field :=
  {| name := ""; t := FieldTypes.String; lenth := 0; nullable := true;
     definition := None; defaultValue := ""; autoIncrement := false;
     index_ := {| PrimaryKey := false; Unique := false; Index := false;
                  FullText := false; Spatial := false |};
     table_name := ""; fk := None |}.

Definition with_type (ty : fieldType) (f : Field) : Field :=
  {| name := name f; t := ty; lenth := lenth f; nullable := nullable f;
     definition := definition f; defaultValue := defaultValue f;
     autoIncrement := autoIncrement f; index_ := index_ f;
     table_name := table_name f; fk := fk f |}.

(** [AsSmallInt], [AsInt], ... : the setters that only assign [f.t]. *)
Definition AsSmallInt := with_type FieldTypes.SmallInt.
Definition AsBigInt := with_type FieldTypes.BigInt.
Definition AsUUID := with_type FieldTypes.UUID.
Definition AsBlob := with_type FieldTypes.Blob.

(** A field of type [Binary]; the source has no setter for it. *)
Definition AsBinary := with_type FieldTypes.Binary.

(* ===================================================================== *)
(** * 3. Type mapper                                                      *)
(* ===================================================================== *)

(** [func (f fieldType) string() string] ([field_types.go]). *)
Definition fieldType_string (f : fieldType) : string :=
  match f with
  | FieldTypes.String | FieldTypes.VarChar => "VARCHAR"
  | FieldTypes.Text => "TEXT"
  | FieldTypes.Int => "INT"
  | FieldTypes.Float => "FLOAT"
  | FieldTypes.Decimal => "DECIMAL(10,2)"
  | FieldTypes.Bool => "BOOLEAN"
  | FieldTypes.TinyInt => "TINYINT"
  | FieldTypes.Date => "DATE"
  | FieldTypes.Time => "TIME"
  | FieldTypes.Timestamp => "TIMESTAMP"
  | FieldTypes.JSON => "JSON"
  | FieldTypes.Enum => "ENUM"
  | FieldTypes.Binary => "BLOB"
  | FieldTypes.UUID => "CHAR(36)"
  | _ => "TEXT"
  end.

(** [func (ft fieldType) IsNumeric() bool] *)
Definition IsNumeric (ft : fieldType) : bool :=
  match ft with
  | FieldTypes.Bool | FieldTypes.Int | FieldTypes.TinyInt
  | FieldTypes.Float | FieldTypes.Decimal => true
  | _ => false
  end.

(** [switch f.t { case a, b: return true }] *)
Definition type_in (ty : fieldType) (l : list fieldType) : bool :=
  bool_decide (ty ∈ l).

(** The text [Compare] builds for an ENUM field:
    [fmt.Sprintf("ENUM(%s)", strings.Join(enumValues, ","))] with
    [enumValues[i] = "'" + strings.ToUpper(fmt.Sprintf("%v", val)+"'")]. *)
Definition enum_literal `{GoLib} (f : Field) : string :=
  let enumValues :=
    map (fun val => "'" +:+ strings_ToUpper (Sprint val +:+ "'"))
        (definition_values f) in
  "ENUM(" +:+ strings_Join enumValues "," +:+ ")".

(** [func (f *Field) Compare(fieldTypeStr string) bool].  A [case] of the
    outer switch whose inner switch does not return falls out of the
    switch to the final [return false]. *)
Definition Compare `{GoLib} (f : Field) (fieldTypeStr : string) : bool :=
  let _type := split_head "(" fieldTypeStr in
  if decide (_type = "TINYINT") then
    type_in (t f) [FieldTypes.TinyInt; FieldTypes.Bool]
  else if decide (_type = "SMALLINT") then
    type_in (t f) [FieldTypes.SmallInt]
  else if decide (_type = "MEDIUMINT") then
    type_in (t f) [FieldTypes.MediumInt]
  else if decide (_type = "INT" \/ _type = "INTEGER") then
    type_in (t f) [FieldTypes.Int]
  else if decide (_type = "BIGINT") then
    type_in (t f) [FieldTypes.BigInt]
  else if decide (_type = "VARCHAR") then
    type_in (t f) [FieldTypes.VarChar; FieldTypes.String]
  else if decide (_type = "CHAR") then
    type_in (t f) [FieldTypes.Char; FieldTypes.String]
  else if decide (_type = "TEXT") then
    type_in (t f) [FieldTypes.Text; FieldTypes.String]
  else if decide (_type = "LONGTEXT") then
    type_in (t f) [FieldTypes.LongText; FieldTypes.JSON]
  else if decide (_type = "BOOL" \/ _type = "BOOLEAN") then
    type_in (t f) [FieldTypes.Bool; FieldTypes.TinyInt]
  else if decide (_type = "DECIMAL") then
    type_in (t f) [FieldTypes.Decimal]
  else if decide (_type = "FLOAT") then
    type_in (t f) [FieldTypes.Float]
  else if decide (_type = "DOUBLE" \/ _type = "REAL") then
    type_in (t f) [FieldTypes.Double; FieldTypes.Real]
  else if decide (_type = "JSON") then
    type_in (t f) [FieldTypes.JSON]
  else if decide (_type = "BLOB") then
    type_in (t f) [FieldTypes.Blob]
  else if decide (_type = "DATE") then
    type_in (t f) [FieldTypes.Date]
  else if decide (_type = "TIME") then
    type_in (t f) [FieldTypes.Time]
  else if decide (_type = "TIMESTAMP") then
    type_in (t f) [FieldTypes.Timestamp]
  else if decide (_type = "ENUM") then
    bool_decide (fieldTypeStr = enum_literal f)
  else if decide (_type = "UUID") then
    type_in (t f) [FieldTypes.UUID]
  else false.

(** The semantic types whose own [fieldType_string] is accepted back by
    [Compare]. *)
Definition round_trip_types : list fieldType :=
  [ FieldTypes.String; FieldTypes.Text; FieldTypes.VarChar; FieldTypes.Int;
    FieldTypes.Float; FieldTypes.Decimal; FieldTypes.Bool; FieldTypes.Date;
    FieldTypes.Time; FieldTypes.Timestamp; FieldTypes.JSON;
    FieldTypes.TinyInt ].

(* ===================================================================== *)
(** * 4. Results                                                          *)
(* ===================================================================== *)

(** [Result map[string]any], [Results map[any]Result] ([type.go]). *)
Abbreviation Result := (gmap string any).
Abbreviation Results := (gmap any (gmap string any)).

(** [func (r *Results) IsEmpty() bool]: [r] is a pointer, [None] is nil. *)
Definition IsEmpty (r : option Results) : bool :=
  match r with
  | None => false
  | Some m => bool_decide (0 < size m)%nat
  end.

(* ===================================================================== *)
(** * 5. Validator                                                        *)
(* ===================================================================== *)

(** [sqlKeywords] ([ddl.go]): the keys mapped to [true]. *)
Definition sqlKeywords : list string :=
  [ "ADD"; "ALL"; "ALTER"; "AND"; "ANY";
    "AS"; "ASC"; "BACKUP"; "BETWEEN"; "CASE";
    "CHECK"; "COLUMN"; "CONSTRAINT"; "CREATE";
    "DATABASE"; "DEFAULT"; "DELETE"; "DESC";
    "DISTINCT"; "DROP"; "EXEC"; "EXISTS";
    "FOREIGN"; "FROM"; "FULL"; "GROUP"; "HAVING";
    "IN"; "INDEX"; "INNER"; "INSERT"; "INTO";
    "IS"; "JOIN"; "KEY"; "LEFT"; "LIKE";
    "LIMIT"; "NOT"; "NULL"; "OR"; "ORDER";
    "OUTER"; "PRIMARY"; "PROCEDURE"; "RIGHT";
    "ROWNUM"; "SELECT"; "SET"; "TABLE"; "TOP";
    "TRUNCATE"; "UNION"; "UNIQUE"; "UPDATE";
    "VALUES"; "VIEW"; "WHERE"; "WITH" ].

(** One constructor per [panic] of [validate.go]. *)
Inductive ValidationError :=
  (* meta.validate *)
  | DuplicateFieldName
  | EnumWithoutDefinition
  | EmptyDefinition
  | PrimaryAndUnique
  | PrimaryTypeNotAllowed
  | PrimaryMarkedNullable
  | PrimaryHasDefault
  | AutoIncrementNotPrimary
  | AutoIncrementNotInteger
  | MoreThanOnePrimary
  (* Field.Validate *)
  | NameEmpty
  | NameInvalidCharacters
  | NameMustStartWithLetter
  | NameReservedKeyword
  | TinyIntLength
  | BooleanLength
  | SmallIntLength
  | MediumIntLength
  | PositiveLengthRequired
  | DecimalLength
  | LengthNotAllowed
  | AutoIncrementNotNumeric
  | PrimaryKeyNullable
  | IndexOnTextBlob
  | DefaultNotCompatible.

(** [if cond { panic(e) }; rest] *)
Definition panic_if (cond : bool) (e : ValidationError)
    (rest : option ValidationError) : option ValidationError :=
  if cond then Some e else rest.

Section Validator.
Context `{GoLib}.

(** [func (ft fieldType) IsValueCompatible(val string) bool] *)
Definition IsValueCompatible (ft : fieldType) (val : string) : bool :=
  match ft with
  | FieldTypes.Int | FieldTypes.TinyInt | FieldTypes.SmallInt
  | FieldTypes.MediumInt | FieldTypes.BigInt =>
      match snd (Atoi val) with None => true | Some _ => false end
  | FieldTypes.Float | FieldTypes.Decimal | FieldTypes.Double
  | FieldTypes.Real =>
      strconv_ParseFloat_ok val
  | FieldTypes.Date | FieldTypes.Time =>
      time_Parse_ok "2006-01-02" val || time_Parse_ok "2006-01-02 15:04:05" val
  | FieldTypes.Timestamp =>
      time_Parse_ok "2006-01-02 15:04:05" val
      || bool_decide (val = "CURRENT_TIMESTAMP") || bool_decide (val = "NOW()")
  | FieldTypes.JSON => json_Unmarshal_ok val
  | FieldTypes.VarChar | FieldTypes.Text | FieldTypes.String
  | FieldTypes.Char => true
  | FieldTypes.Bool =>
      bool_decide (val = "0") || bool_decide (val = "1")
      || bool_decide (val = "true") || bool_decide (val = "false")
  | _ => true
  end.

(** [func isAlphaNumeric(s string) bool] *)
Definition isAlphaNumeric (s : string) : bool :=
  forallb (fun r => unicode_IsLetter r || unicode_IsDigit r) (utf8_runes s).

(** [rune(f.name[0])]: the first byte read as a code point. *)
Definition first_byte_rune (s : string) : Z :=
  match s with
  | EmptyString => 0
  | String c _ => Z.of_N (N_of_ascii c)
  end.

(** The [switch f.t] of [Validate]: the length policy of each type. *)
Definition length_policy (f : Field) : option ValidationError :=
  match t f with
  | FieldTypes.TinyInt =>
      if lenth f <? 3 then Some TinyIntLength else None
  | FieldTypes.Bool =>
      if (lenth f <? 0) || (1 <? lenth f) then Some BooleanLength else None
  | FieldTypes.SmallInt =>
      if lenth f <? 5 then Some SmallIntLength else None
  | FieldTypes.MediumInt =>
      if lenth f <? 6 then Some MediumIntLength else None
  | FieldTypes.Int | FieldTypes.BigInt =>
      if lenth f <? 1 then Some PositiveLengthRequired else None
  | FieldTypes.VarChar | FieldTypes.Char =>
      if lenth f <? 1 then Some PositiveLengthRequired else None
  | FieldTypes.Decimal =>
      if lenth f <? 1 then Some DecimalLength else None
  | FieldTypes.Text | FieldTypes.Blob | FieldTypes.JSON | FieldTypes.Date
  | FieldTypes.Time | FieldTypes.Timestamp =>
      if 0 <? lenth f then Some LengthNotAllowed else None
  | _ => None
  end.

(** [func (f Field) Validate()]: [None] when it returns, [Some e] when
    it panics. *)
Definition Validate (f : Field) : option ValidationError :=
  panic_if (bool_decide (name f = "")) NameEmpty $
  panic_if (negb (isAlphaNumeric (name f))) NameInvalidCharacters $
  panic_if (negb (unicode_IsLetter (first_byte_rune (name f))))
    NameMustStartWithLetter $
  panic_if (bool_decide (strings_ToUpper (name f) ∈ sqlKeywords))
    NameReservedKeyword $
  match length_policy f with
  | Some e => Some e
  | None =>
      panic_if (autoIncrement f && negb (IsNumeric (t f)))
        AutoIncrementNotNumeric $
      panic_if (PrimaryKey (index_ f) && nullable f) PrimaryKeyNullable $
      panic_if ((Unique (index_ f) || Index (index_ f))
                && (bool_decide (t f = FieldTypes.Text)
                    || bool_decide (t f = FieldTypes.Blob)))
        IndexOnTextBlob $
      panic_if (negb (bool_decide (defaultValue f = ""))
                && negb (IsValueCompatible (t f) (defaultValue f)))
        DefaultNotCompatible $
      None
  end.

(** The checks the goroutine of [meta.validate] makes on one field after
    the duplicate-name test, up to and including its call of
    [f.Validate()]. *)
Definition field_checks (f : Field) : option ValidationError :=
  panic_if (bool_decide (t f = FieldTypes.Enum)
            && bool_decide (definition f = None))
    EnumWithoutDefinition $
  panic_if (bool_decide (definition f = Some [])) EmptyDefinition $
  panic_if (PrimaryKey (index_ f) && Unique (index_ f)) PrimaryAndUnique $
  panic_if (PrimaryKey (index_ f)
            && negb (bool_decide (t f = FieldTypes.Int))
            && negb (bool_decide (t f = FieldTypes.VarChar)))
    PrimaryTypeNotAllowed $
  panic_if (PrimaryKey (index_ f) && nullable f) PrimaryMarkedNullable $
  panic_if (PrimaryKey (index_ f) && negb (bool_decide (defaultValue f = "")))
    PrimaryHasDefault $
  panic_if (autoIncrement f && negb (PrimaryKey (index_ f)))
    AutoIncrementNotPrimary $
  panic_if (autoIncrement f
            && negb (strings_HasPrefix
                       (strings_ToLower (fieldType_string (t f))) "int"))
    AutoIncrementNotInteger $
  Validate f.

(** The state the goroutines of [meta.validate] share under the mutex. *)
Record validation_state := {
  fieldNames : gset string;
  primaryKeyCount : nat
}.

(** [primaryKeyCount++] is reached by a primary-key field that is not
    unique and has an allowed type. *)
Definition counts_as_primary (f : Field) : bool :=
  PrimaryKey (index_ f) && negb (Unique (index_ f))
  && (bool_decide (t f = FieldTypes.Int)
      || bool_decide (t f = FieldTypes.VarChar)).

(** The body of one goroutine of [meta.validate]: the recovered panic,
    if any, and the shared state it leaves. *)
Definition validate_field (f : Field) (st : validation_state)
    : validation_state * option ValidationError :=
  if decide (name f ∈ fieldNames st) then (st, Some DuplicateFieldName)
  else
    ({| fieldNames := {[ name f ]} ∪ fieldNames st;
        primaryKeyCount :=
          if counts_as_primary f then S (primaryKeyCount st)
          else primaryKeyCount st |},
     field_checks f).

(** The goroutines run one after the other in the order of [fs];
    [firstErr] keeps the first recovered panic ([panicOnce]). *)
Fixpoint validate_fields (fs : list Field) (st : validation_state)
    (firstErr : option ValidationError)
    : validation_state * option ValidationError :=
  match fs with
  | [] => (st, firstErr)
  | f :: rest =>
      let '(st', e) := validate_field f st in
      validate_fields rest st'
        (match firstErr with Some _ => firstErr | None => e end)
  end.

(** [func (m *meta) validate()] over the fields of the table. *)
Definition validate (fields : list Field) : option ValidationError :=
  let '(st, firstErr) :=
    validate_fields fields {| fieldNames := ∅; primaryKeyCount := 0 |} None in
  match firstErr with
  | Some e => Some e
  | None =>
      if (1 <? primaryKeyCount st)%nat then Some MoreThanOnePrimary else None
  end.

(** ** The invariants the specification lists *)

(** The six invariants enumerated for [Validate]: a nullable primary
    key, primary and unique both set, auto-increment on a non-numeric
    type, an enum with an empty literal list, a text field with the
    index flag, a varchar of length 0. *)
Definition listed_violation (f : Field) : Prop :=
  (PrimaryKey (index_ f) = true /\ nullable f = true) \/
  (PrimaryKey (index_ f) = true /\ Unique (index_ f) = true) \/
  (autoIncrement f = true /\ IsNumeric (t f) = false) \/
  (t f = FieldTypes.Enum /\ definition_values f = []) \/
  (t f = FieldTypes.Text /\ Index (index_ f) = true) \/
  (t f = FieldTypes.VarChar /\ lenth f = 0).

(** [Validate]'s test of the name. *)
Definition illegal_name (f : Field) : Prop :=
  name f = "" \/
  isAlphaNumeric (name f) = false \/
  unicode_IsLetter (first_byte_rune (name f)) = false \/
  strings_ToUpper (name f) ∈ sqlKeywords.

(** What else the code refuses. *)
Definition further_violation (f : Field) : Prop :=
  illegal_name f \/
  definition f = Some [] \/
  (PrimaryKey (index_ f) = true /\ t f <> FieldTypes.Int
     /\ t f <> FieldTypes.VarChar) \/
  (PrimaryKey (index_ f) = true /\ defaultValue f <> "") \/
  (autoIncrement f = true /\ PrimaryKey (index_ f) = false) \/
  (autoIncrement f = true /\ t f <> FieldTypes.Int) \/
  length_policy f <> None \/
  ((Unique (index_ f) = true \/ Index (index_ f) = true)
     /\ (t f = FieldTypes.Text \/ t f = FieldTypes.Blob)) \/
  (defaultValue f <> "" /\ IsValueCompatible (t f) (defaultValue f) = false).
End Validator.

(* ===================================================================== *)
(** * 6. Schema snapshot, database handle, program state                  *)
(* ===================================================================== *)

Module sql.
(** [sql.NullString] *)
Record NullString := { String : string; Valid : bool }.
End sql.

Module Schema.
(** [schema] ([type.go]): one live column. *)
Record schema := {
  field : string;
  fieldType : string;
  nullable : string;
  key : string;
  extra : string;
  defaultVal : sql.NullString;
  isunique : bool;
  isindex : bool;
  isprimary : bool
}.
End Schema.

Abbreviation schema := Schema.schema.

(** One scanned row of [SHOW COLUMNS FROM `table`]. *)
Record ColumnRow := {
  col_Field : string;
  col_Type : string;
  col_Null : string;
  col_Key : string;
  col_Default : sql.NullString;
  col_Extra : string
}.

(** One scanned row of the query on [information_schema.statistics]. *)
Record IndexRow := {
  columnName : string;
  indexName : string;
  nonUnique : Z
}.

(** The statements the package sends through [Exec] (and, for
    [AlterAddPrimaryKey], through [Query]), by the SQL text they stand for:
    - [AlterAddColumn t f]: ALTER TABLE `t` ADD <columnDefinition f>
      <addIndexStatement f>;
    - [AlterChangeColumn t f]: ALTER TABLE `t` CHANGE `f.name`
      <columnDefinition f>;
    - [AlterDropColumn t c]: ALTER TABLE `t` DROP `c`;
    - [AlterDropPrimaryKey t]: ALTER TABLE `t` DROP PRIMARY KEY;
    - [AlterAddPrimaryKey t c]: ALTER TABLE t ADD PRIMARY KEY (c)
    - [AlterDropIndex t i]: ALTER TABLE `t` DROP INDEX `i`;
    - [AlterAddUnique t i c]: ALTER TABLE `t` ADD UNIQUE `i` (`c`);
    - [AlterAddIndex t i c]: ALTER TABLE `t` ADD INDEX `i` (`c`);
    - [InsertInto t row]: INSERT INTO t (`c1`, ...) VALUES (?, ...) with
      the values of [row] as arguments;
    - [DeleteFrom t w a n]: DELETE FROM `t` WHERE <w joined by spaces>,
      followed by LIMIT n when 0 < n, with arguments [a];
    - [UpdateSet t s sa w wa]: UPDATE `t` SET <s joined by ", "> WHERE <w>,
      with arguments [sa ++ wa]. *)
Inductive Stmt :=
  | AlterAddColumn (table : string) (f : Field)
  | AlterChangeColumn (table : string) (f : Field)
  | AlterDropColumn (table : string) (fieldName : string)
  | AlterDropPrimaryKey (table : string)
  | AlterAddPrimaryKey (table : string) (fieldName : string)
  | AlterDropIndex (table : string) (index_name : string)
  | AlterAddUnique (table : string) (index_name : string) (fieldName : string)
  | AlterAddIndex (table : string) (index_name : string) (fieldName : string)
  | InsertInto (table : string) (row : list (string * any))
  | DeleteFrom (table : string) (whereClauses : list string)
      (whereArgs : list any) (limit : Z)
  | UpdateSet (table : string) (setClauses : list string) (setArgs : list any)
      (whereClauses : list string) (whereArgs : list any).

(** The database behind [m.db], as far as the package talks to it.  Every
    field is one call of the source; a query answers with an error or with
    its rows, a row with an error of [Scan] or with its values. *)
Class Database (D : Type) := {
  (** [m.db.Ping()] *)
  db_Ping : D -> option error;
  (** the COUNT query on [information_schema.tables] for a table name *)
  db_count_tables : D -> string -> error + Z;
  (** [SHOW COLUMNS FROM `table`] *)
  db_show_columns : D -> string -> error + list (error + ColumnRow);
  (** [SELECT DATABASE()] *)
  db_database_name : D -> error + string;
  (** the index query for database, table and column *)
  db_index_rows :
    D -> string -> string -> string -> error + list (error + IndexRow);
  (** [SELECT * FROM table]: the rows, each column already converted as
      [Fetch] does, then [rows.Err()] *)
  db_select_all : D -> string -> error + (list (error + Result) * option error);
  (** [m.db.Exec(statement)] *)
  db_Exec : D -> Stmt -> option error * D
}.

(** [meta] ([models.go]).  The field [FieldTypes] is spelled [FieldTypes']. *)
Record meta := {
  components : gmap string (gmap string any);
  TableName : string;
  FieldTypes' : gmap string Field;
  schemas : list schema;
  primary : option Field
}.

(** What the program writes for the operator before it reads an answer,
    and what it sends to the database. *)
Inductive Event :=
  | Prompted (text : string)
  | Executed (statement : Stmt).

(** The state a method of [meta] runs in: the receiver, the database, the
    component files by path, whether the components directory can be
    written, the operator's pending lines of input (a read takes the
    first; [Scanln] may leave a part of it unread), and the events so
    far. *)
Record State (D : Type) := {
  self : meta;
  db : D;
  files : gmap string (gmap string (gmap string any));
  disk_writable : bool;
  stdin : list string;
  trace : list Event
}.

Arguments self {D} _.
Arguments db {D} _.
Arguments files {D} _.
Arguments disk_writable {D} _.
Arguments stdin {D} _.
Arguments trace {D} _.

(** How a call ends: it returns, it panics, or it recurses without end. *)
Inductive Outcome (D A : Type) :=
  | Returned (a : A) (s : State D)
  | Panicked (msg : string) (s : State D)
  | Diverged (s : State D).

Arguments Returned {D A} _ _.
Arguments Panicked {D A} _ _.
Arguments Diverged {D A} _.

Definition final_state {D A} (o : Outcome D A) : State D :=
  match o with
  | Returned _ s => s
  | Panicked _ s => s
  | Diverged s => s
  end.

Definition M (D A : Type) : Type := State D -> Outcome D A.

Definition ret {D A} (a : A) : M D A := fun s => Returned a s.

Definition bind {D A B} (c : M D A) (k : A -> M D B) : M D B :=
  fun s =>
    match c s with
    | Returned a s' => k a s'
    | Panicked msg s' => Panicked msg s'
    | Diverged s' => Diverged s'
    end.

Definition panic {D A} (msg : string) : M D A := fun s => Panicked msg s.

Notation "x <- c ;; k" := (bind c (fun x => k))
  (at level 100, c at next level, right associativity).
Notation "c ;;; k" := (bind c (fun _ => k))
  (at level 100, right associativity).

Section StateAccess.
Context {D : Type}.

Definition get_self : M D meta := fun s => Returned (self s) s.

Definition set_self (m : meta) : M D unit := fun s =>
  Returned tt {| self := m; db := db s; files := files s;
                 disk_writable := disk_writable s; stdin := stdin s;
                 trace := trace s |}.

Definition emit (e : Event) : M D unit := fun s =>
  Returned tt {| self := self s; db := db s; files := files s;
                 disk_writable := disk_writable s; stdin := stdin s;
                 trace := trace s ++ [e] |}.

(** One read of the operator's answer; a read past the last answer
    finds nothing and reports an error. *)
Definition read_answer : M D (string * bool) := fun s =>
  match stdin s with
  | [] => Returned ("", false) s
  | a :: rest =>
      Returned (a, true)
        {| self := self s; db := db s; files := files s;
           disk_writable := disk_writable s; stdin := rest;
           trace := trace s |}
  end.

Definition set_components (c : gmap string (gmap string any)) (m : meta) : meta :=
  {| components := c; TableName := TableName m; FieldTypes' := FieldTypes' m;
     schemas := schemas m; primary := primary m |}.

Definition set_schemas (l : list schema) (m : meta) : meta :=
  {| components := components m; TableName := TableName m;
     FieldTypes' := FieldTypes' m; schemas := l; primary := primary m |}.

Definition set_primary (p : option Field) (m : meta) : meta :=
  {| components := components m; TableName := TableName m;
     FieldTypes' := FieldTypes' m; schemas := schemas m; primary := p |}.

Definition modify_self (f : meta -> meta) : M D unit :=
  m <- get_self ;; set_self (f m).

(** [os.WriteFile(path, bytes, 0644)] of the encoded components. *)
Definition write_file (path : string) (content : gmap string (gmap string any))
    : M D (option error) := fun s =>
  if disk_writable s then
    Returned None
      {| self := self s; db := db s; files := <[path := content]> (files s);
         disk_writable := disk_writable s; stdin := stdin s;
         trace := trace s |}
  else Returned (Some "open: no such file or directory") s.

Context `{Database D}.

Definition Ping : M D (option error) := fun s => Returned (db_Ping (db s)) s.

(** [m.db.Exec(statement)]: the statement reaches the database and is
    recorded. *)
Definition Exec (statement : Stmt) : M D (option error) := fun s =>
  let '(e, d) := db_Exec (db s) statement in
  Returned e {| self := self s; db := d; files := files s;
                disk_writable := disk_writable s; stdin := stdin s;
                trace := trace s ++ [Executed statement] |}.

Definition query {A} (q : D -> A) : M D A := fun s => Returned (q (db s)) s.
End StateAccess.

(** ** Events added to the trace *)

Section TraceSpec.
Context {D : Type}.

(** Whatever the start state, [c] only appends events, each of them
    satisfying [P]. *)
Definition emits {A} (P : Event -> Prop) (c : M D A) : Prop :=
  forall s, exists evs,
    trace (final_state (c s)) = (trace s ++ evs)%list /\ Forall P evs.

(** [c] appends events satisfying [P], then events satisfying [Q]. *)
Definition emits_then {A} (P Q : Event -> Prop) (c : M D A) : Prop :=
  forall s, exists before after,
    trace (final_state (c s)) = (trace s ++ before ++ after)%list /\
    Forall P before /\ Forall Q after.

End TraceSpec.


(* ===================================================================== *)
(** * 7. Schema introspection and reconciliation                          *)
(* ===================================================================== *)

Section Introspection.
Context {D : Type} `{Database D}.

(** The classification of one index row in [syncModelSchema]. *)
Definition classify_index (sc : schema) (row : IndexRow) : schema :=
  if decide (indexName row = "PRIMARY") then
    {| Schema.field := Schema.field sc; Schema.fieldType := Schema.fieldType sc;
       Schema.nullable := Schema.nullable sc; Schema.key := Schema.key sc;
       Schema.extra := Schema.extra sc; Schema.defaultVal := Schema.defaultVal sc;
       Schema.isunique := Schema.isunique sc; Schema.isindex := Schema.isindex sc;
       Schema.isprimary := true |}
  else
    let suffix0 := split_head "_" (indexName row) in
    if decide (suffix0 = "idx") then
      {| Schema.field := Schema.field sc; Schema.fieldType := Schema.fieldType sc;
         Schema.nullable := Schema.nullable sc; Schema.key := Schema.key sc;
         Schema.extra := Schema.extra sc; Schema.defaultVal := Schema.defaultVal sc;
         Schema.isunique := Schema.isunique sc; Schema.isindex := true;
         Schema.isprimary := Schema.isprimary sc |}
    else if decide (suffix0 = "unq") then
      {| Schema.field := Schema.field sc; Schema.fieldType := Schema.fieldType sc;
         Schema.nullable := Schema.nullable sc; Schema.key := Schema.key sc;
         Schema.extra := Schema.extra sc; Schema.defaultVal := Schema.defaultVal sc;
         Schema.isunique := true; Schema.isindex := Schema.isindex sc;
         Schema.isprimary := Schema.isprimary sc |}
    else sc.

(** [for idxRows.Next() { ... }] *)
Fixpoint scan_index_rows (rows : list (error + IndexRow)) (sc : schema)
    : M D schema :=
  match rows with
  | [] => ret sc
  | inl e :: _ => panic ("Error scanning index row: " +:+ e)
  | inr row :: rest => scan_index_rows rest (classify_index sc row)
  end.

(** [_scema := schema{}] filled by [rows.Scan]. *)
Definition schema_of_row (r : ColumnRow) : schema :=
  {| Schema.field := col_Field r; Schema.fieldType := col_Type r;
     Schema.nullable := col_Null r; Schema.key := col_Key r;
     Schema.extra := col_Extra r; Schema.defaultVal := col_Default r;
     Schema.isunique := false; Schema.isindex := false;
     Schema.isprimary := false |}.

(** [for rows.Next() { ... }] of [syncModelSchema]. *)
Fixpoint scan_columns (dbName : string) (rows : list (error + ColumnRow))
    : M D unit :=
  match rows with
  | [] => ret tt
  | inl e :: _ => panic ("Error scanning row: " +:+ e)
  | inr r :: rest =>
      m <- get_self ;;
      idx <- query (fun d => db_index_rows d dbName (TableName m) (col_Field r)) ;;
      match idx with
      | inl e => panic ("Error getting index information: " +:+ e)
      | inr idxRows =>
          sc <- scan_index_rows idxRows (schema_of_row r) ;;
          modify_self (fun m => set_schemas (schemas m ++ [sc]) m) ;;;
          scan_columns dbName rest
      end
  end.

(** [func (m *meta) syncModelSchema()] *)
Definition syncModelSchema : M D unit :=
  p <- Ping ;;
  match p with
  | Some e => panic ("Database not reachable: " +:+ e)
  | None =>
      m <- get_self ;;
      c <- query (fun d => db_count_tables d (TableName m)) ;;
      match c with
      | inl e => panic ("Error checking table existence: " +:+ e)
      | inr count =>
          if count =? 0 then ret tt
          else
            r <- query (fun d => db_show_columns d (TableName m)) ;;
            match r with
            | inl e => panic ("Error getting old table structure: " +:+ e)
            | inr rows =>
                modify_self (set_schemas []) ;;;
                n <- query db_database_name ;;
                match n with
                | inl e => panic ("Error getting database name: " +:+ e)
                | inr dbName => scan_columns dbName rows
                end
            end
      end
  end.
End Introspection.


(** ** [parseSQLType] *)

(** The longest prefix of [s] whose bytes satisfy [p], and the rest. *)
Fixpoint span (p : ascii -> bool) (s : string) : string * string :=
  match s with
  | EmptyString => (EmptyString, EmptyString)
  | String c r =>
      if p c then let '(a, b) := span p r in (String c a, b)
      else (EmptyString, s)
  end.

(** [regexp.MustCompile(`^([A-Z]+)\((\d+)\)$`).FindStringSubmatch(s)]:
    the two groups when the whole of [s] is letters, an opening
    parenthesis, digits, a closing parenthesis. *)
Definition match_type_length (s : string) : option (string * string) :=
  let '(letters, rest) := span is_upper_AZ s in
  match letters, rest with
  | String _ _, String "(" rest' =>
      let '(digits, tail) := span is_digit_09 rest' in
      match digits, tail with
      | String _ _, String ")" EmptyString => Some (letters, digits)
      | _, _ => None
      end
  | _, _ => None
  end.

(** [func (sc *schema) parseSQLType() (string, int)]; the error of
    [strconv.Atoi] is dropped as in the source. *)
Definition parseSQLType `{GoLib} (sc : schema) : string * Z :=
  let sqlType := strings_ToUpper (strings_TrimSpace (Schema.fieldType sc)) in
  match match_type_length sqlType with
  | Some (base, digits) => (base, fst (Atoi digits))
  | None => (sqlType, 0)
  end.

(** ** The comparison of one present column *)

(** [if cond { reasons = append(reasons, reason); shouldChange = true }] *)
Definition note (cond : bool) (reason : string) (acc : list string * bool)
    : list string * bool :=
  if cond then ((fst acc ++ [reason])%list, true) else acc.

Definition type_mismatch_text (old new : string) : string :=
  "type mismatch(old:" +:+ old +:+ ",new:" +:+ new +:+ ")".

Definition length_mismatch_text (old new : Z) : string :=
  "length mismatch(old:" +:+ pretty old +:+ ":new:" +:+ pretty new +:+ ")".

(** The reasons and the flag [shouldChange] that [syncTableSchema]
    computes for a declared field and its live column. *)
Definition drift_reasons `{GoLib} (field : Field) (sc : schema)
    : list string * bool :=
  let '(filed_type, field_length) := parseSQLType sc in
  note ((bool_decide (Schema.extra sc = "auto_increment")
           && negb (autoIncrement field))
        || (bool_decide (Schema.extra sc = "") && autoIncrement field))
       "auto_increment mismatch"
  (note ((bool_decide (Schema.nullable sc = "YES") && negb (nullable field))
         || (bool_decide (Schema.nullable sc = "NO") && nullable field))
        "nullable mismatch"
  (note (negb (bool_decide (sql.String (Schema.defaultVal sc) = defaultValue field))
         && negb (bool_decide (t field = FieldTypes.Timestamp)))
        "default mismatch"
  (note (negb ((field_length =? 1) && (lenth field =? 0))
         && negb (field_length =? lenth field))
        (length_mismatch_text field_length (lenth field))
  (note (negb (Compare field filed_type))
        (type_mismatch_text filed_type (fieldType_string (t field)))
  ([], false))))).

(** A reason that reports a length mismatch. *)
Definition is_length_mismatch (reason : string) : bool :=
  String.prefix "length mismatch" reason.

Section Reconciler.
Context {D : Type} `{Database D} `{GoLib}.

(** ** The DDL actions ([ddl.go], [models.go]) *)

(** [func (m *meta) addField(field *Field)] *)
Definition addField (field : Field) : M D unit :=
  m <- get_self ;;
  p <- Ping ;;
  match p with
  | Some e => panic ("Error While Adding new Field to the table" +:+ e)
  | None =>
      r <- Exec (AlterAddColumn (TableName m) field) ;;
      match r with
      | Some e => panic ("Error While Updating the Table Field" +:+ e)
      | None => ret tt
      end
  end.

(** [func (m *meta) modifyDBField(field *Field)] *)
Definition modifyDBField (field : Field) : M D unit :=
  m <- get_self ;;
  p <- Ping ;;
  match p with
  | Some e => panic ("Error While Changing Field" +:+ e)
  | None =>
      r <- Exec (AlterChangeColumn (TableName m) field) ;;
      match r with
      | Some e => panic ("Error While Changing the Table Field" +:+ e)
      | None => ret tt
      end
  end.

(** [func (m *meta) removeDBField(fieldName string)] *)
Definition removeDBField (fieldName : string) : M D unit :=
  m <- get_self ;;
  p <- Ping ;;
  match p with
  | Some e => panic ("Error While Deleting Field" +:+ e)
  | None =>
      r <- Exec (AlterDropColumn (TableName m) fieldName) ;;
      match r with
      | Some e => panic ("Error While Deleting the Field" +:+ e)
      | None => ret tt
      end
  end.

(** A statement whose error is only printed. *)
Definition Exec_logged (statement : Stmt) : M D unit :=
  _ <- Exec statement ;; ret tt.

(** [func (m *meta) syncPrimaryKey(field *Field, schema *schema)] *)
Definition syncPrimaryKey (field : Field) (sc : schema) : M D unit :=
  m <- get_self ;;
  p <- Ping ;;
  match p with
  | Some _ => ret tt
  | None =>
      (if Schema.isprimary sc && negb (PrimaryKey (index_ field))
       then Exec_logged (AlterDropPrimaryKey (TableName m)) else ret tt) ;;;
      (if negb (Schema.isprimary sc) && PrimaryKey (index_ field)
       then Exec_logged (AlterAddPrimaryKey (TableName m) (name field))
       else ret tt)
  end.

(** [func (m *meta) syncUniqueIndex(field *Field, schema *schema)] *)
Definition syncUniqueIndex (field : Field) (sc : schema) : M D unit :=
  m <- get_self ;;
  p <- Ping ;;
  match p with
  | Some _ => ret tt
  | None =>
      let index_name := "unq_" +:+ name field in
      (if Schema.isunique sc && negb (Unique (index_ field))
       then Exec_logged (AlterDropIndex (TableName m) index_name) else ret tt) ;;;
      (if negb (Schema.isunique sc) && Unique (index_ field)
       then Exec_logged (AlterAddUnique (TableName m) index_name (name field))
       else ret tt)
  end.

(** [func (m *meta) syncIndex(field *Field, schema *schema)] *)
Definition syncIndex (field : Field) (sc : schema) : M D unit :=
  m <- get_self ;;
  p <- Ping ;;
  match p with
  | Some _ => ret tt
  | None =>
      let index_name := "idx_" +:+ name field in
      (if Schema.isindex sc && negb (Index (index_ field))
       then Exec_logged (AlterDropIndex (TableName m) index_name) else ret tt) ;;;
      (if negb (Schema.isindex sc) && Index (index_ field)
       then Exec_logged (AlterAddIndex (TableName m) index_name (name field))
       else ret tt)
  end.

(** ** [syncTableSchema] *)

(** The prompt, then [input, err := reader.ReadString('\n')]: whether
    [strings.TrimSpace(input) == "y"], and whether [err == nil]. *)
Definition ask (prompt : string) : M D (bool * bool) :=
  emit (Prompted prompt) ;;;
  a <- read_answer ;;
  ret (bool_decide (strings_TrimSpace (fst a) = "y"), snd a).

(** [if declared != live { ask; sync }] for one kind of index. *)
Definition sync_when_differs (live declared : bool) (prompt : string)
    (action : M D unit) : M D unit :=
  if negb (Bool.eqb live declared) then
    a <- ask prompt ;;
    if fst a then action else ret tt
  else ret tt.

(** The body of the first loop of [syncTableSchema] for one declared
    field; the result is [pendingAddFields]. *)
Definition sync_field (schemaMap : gmap string schema) (field : Field)
    (pendingAddFields : list Field) : M D (list Field) :=
  match schemaMap !! name field with
  | None =>
      a <- ask ("Field '" +:+ name field +:+ "' not in DB. Add? (y/n): ") ;;
      if fst a then ret (pendingAddFields ++ [field])%list
      else ret pendingAddFields
  | Some sc =>
      let '(reasons, shouldChange) := drift_reasons field sc in
      (if shouldChange then
         a <- ask ("Field '" +:+ name field +:+ "' requires update ("
                   +:+ strings_Join reasons ", " +:+ "). Proceed? (y/n): ") ;;
         if fst a then modifyDBField field else ret tt
       else ret tt) ;;;
      sync_when_differs (Schema.isunique sc) (Unique (index_ field))
        ("UNIQUE index mismatch on '" +:+ name field +:+ "'. Sync? (y/n): ")
        (syncUniqueIndex field sc) ;;;
      sync_when_differs (Schema.isprimary sc) (PrimaryKey (index_ field))
        ("PRIMARY KEY mismatch on '" +:+ name field +:+ "'. Sync? (y/n): ")
        (syncPrimaryKey field sc) ;;;
      sync_when_differs (Schema.isindex sc) (Index (index_ field))
        ("INDEX mismatch on '" +:+ name field +:+ "'. Sync? (y/n): ")
        (syncIndex field sc) ;;;
      ret pendingAddFields
  end.

(** [for _, field := range m.FieldTypes { ... }] *)
Fixpoint sync_fields (schemaMap : gmap string schema) (fields : list Field)
    (pendingAddFields : list Field) : M D (list Field) :=
  match fields with
  | [] => ret pendingAddFields
  | field :: rest =>
      pending <- sync_field schemaMap field pendingAddFields ;;
      sync_fields schemaMap rest pending
  end.

(** [for _, schema := range m.schemas { ... }]: the stale columns. *)
Fixpoint remove_stale_fields (FieldTypeset : gmap string Field)
    (live : list schema) : M D unit :=
  match live with
  | [] => ret tt
  | sc :: rest =>
      (match FieldTypeset !! Schema.field sc with
       | Some _ => ret tt
       | None =>
           a <- ask ("Field '" +:+ Schema.field sc
                     +:+ "' exists in DB but not in model. Delete? (y/n): ") ;;
           if snd a && fst a then removeDBField (Schema.field sc) else ret tt
       end) ;;;
      remove_stale_fields FieldTypeset rest
  end.

(** [for _, field := range pendingAddFields { m.addField(field) }] *)
Fixpoint add_pending_fields (pendingAddFields : list Field) : M D unit :=
  match pendingAddFields with
  | [] => ret tt
  | field :: rest => addField field ;;; add_pending_fields rest
  end.

(** [schemaMap[s.field] = s] for every live column, in order. *)
Definition build_schemaMap (live : list schema) : gmap string schema :=
  fold_left (fun acc sc => <[Schema.field sc := sc]> acc) live ∅.

(** [FieldTypeset[f.name] = f] for every declared field. *)
Definition build_FieldTypeset (fields : list Field) : gmap string Field :=
  fold_left (fun acc f => <[name f := f]> acc) fields ∅.

(** The comparison pass and the removal of stale columns: everything
    [syncTableSchema] does before it applies the pending additions. *)
Definition compare_and_remove : M D (list Field) :=
  m <- get_self ;;
  let declared := map snd (map_to_list (FieldTypes' m)) in
  pending <- sync_fields (build_schemaMap (schemas m)) declared [] ;;
  remove_stale_fields (build_FieldTypeset declared) (schemas m) ;;;
  ret pending.

(** [func (m *meta) syncTableSchema()] *)
Definition syncTableSchema : M D unit :=
  pending <- compare_and_remove ;;
  add_pending_fields pending.
End Reconciler.

(** An executed "add column" statement. *)
Definition is_add_column (e : Event) : bool :=
  match e with
  | Executed (AlterAddColumn _ _) => true
  | _ => false
  end.

(** A modify-column, index-sync or drop-column statement. *)
Definition is_modify_or_drop (e : Event) : bool :=
  match e with
  | Executed (AlterChangeColumn _ _)
  | Executed (AlterDropColumn _ _)
  | Executed (AlterDropPrimaryKey _)
  | Executed (AlterAddPrimaryKey _ _)
  | Executed (AlterDropIndex _ _)
  | Executed (AlterAddUnique _ _ _)
  | Executed (AlterAddIndex _ _ _) => true
  | _ => false
  end.

Definition only_add (e : Event) : Prop := is_add_column e = true.

(** The declared fields for which the live snapshot has no column, in the
    order of the comparison pass: those with [!exists] at
    [schema, exists := schemaMap[field.name]]. *)
Definition missing_fields (m : meta) : list Field :=
  filter (fun f => build_schemaMap (schemas m) !! name f = None)
         (map snd (map_to_list (FieldTypes' m))).


(** The operator's answer [a] passes [strings.TrimSpace(input) == "y"]. *)
Definition is_yes `{GoLib} (a : string) : Prop := strings_TrimSpace a = "y".

Section Frames.
Context {D : Type}.


End Frames.


(* ===================================================================== *)
(** * 8. Query builder and component cache                                *)
(* ===================================================================== *)

(** [queryBuilder] ([query.handler.go]), the fields the component cache
    reaches. *)
Record queryBuilder := {
  whereClauses : list string;
  whereArgs : list any;
  lastColumn : string;
  setClauses : list string;
  setArgs : list any;
  lastSet : string;
  limit : Z;
  operation : string
}.

(** [fmt.Sprintf("`%s` = ?", column)] *)
Definition equals_clause (column : string) : string := "`" +:+ column +:+ "` = ?".

Definition new_builder (op : string) : queryBuilder :=
  {| whereClauses := []; whereArgs := []; lastColumn := "";
     setClauses := []; setArgs := []; lastSet := ""; limit := 0;
     operation := op |}.

(** [m.Delete()] and [m.Update(nil)] *)
Definition Delete : queryBuilder := new_builder "delete".
Definition Update_nil : queryBuilder := new_builder "update".

(** [func (q *queryBuilder) Is(value any) *queryBuilder] *)
Definition Is (value : any) (q : queryBuilder) : queryBuilder :=
  {| whereClauses := whereClauses q ++ [equals_clause (lastColumn q)];
     whereArgs := whereArgs q ++ [value];
     lastColumn := "";
     setClauses := setClauses q; setArgs := setArgs q; lastSet := lastSet q;
     limit := limit q; operation := operation q |}.

(** [func (q *queryBuilder) SetWithFieldName(field string) *queryBuilder] *)
Definition SetWithFieldName (field : string) (q : queryBuilder) : queryBuilder :=
  {| whereClauses := whereClauses q; whereArgs := whereArgs q;
     lastColumn := lastColumn q;
     setClauses := setClauses q; setArgs := setArgs q; lastSet := field;
     limit := limit q;
     operation := if decide (operation q = "") then "update" else operation q |}.

(** [func (q *queryBuilder) To(value any) *queryBuilder]; the case
    ["InsertRow"] writes to a map these builders do not have and is not
    reached from [m.Update]. *)
Definition To (value : any) (q : queryBuilder) : queryBuilder :=
  if decide (operation q = "update") then
    {| whereClauses := whereClauses q; whereArgs := whereArgs q;
       lastColumn := lastColumn q;
       setClauses := setClauses q ++ [equals_clause (lastSet q)];
       setArgs := setArgs q ++ [value]; lastSet := "";
       limit := limit q; operation := operation q |}
  else
    {| whereClauses := whereClauses q; whereArgs := whereArgs q;
       lastColumn := lastColumn q;
       setClauses := setClauses q; setArgs := setArgs q; lastSet := "";
       limit := limit q; operation := operation q |}.

(** [for idx, val := range value { q = q.SetWithFieldName(idx).To(val) }] *)
Definition set_columns (value : list (string * any)) (q : queryBuilder)
    : queryBuilder :=
  fold_left (fun q c => To (snd c) (SetWithFieldName (fst c) q)) value q.

(** [updated[fmt.Sprint(k)] = component(v)] for every fetched row. *)
Definition components_of_results (results : list (any * gmap string any))
    : gmap string (gmap string any) :=
  fold_left (fun acc kv => <[Sprint (fst kv) := snd kv]> acc) results ∅.

(** [filepath.Join(componentsDir, m.TableName+".component.json")] *)
Definition component_path (m : meta) : string :=
  "components/" +:+ TableName m +:+ ".component.json".

Definition not_found : error := "no componnet found with such name".

(** ** [fmt.Scanln] of one string *)

Definition byte_value (c : ascii) : Z := Z.of_N (N_of_ascii c).

(** [utf8.RuneError], U+FFFD. *)
Definition RuneError : Z := 65533.

Definition in_range (lo hi : Z) (c : ascii) : bool :=
  (lo <=? byte_value c) && (byte_value c <=? hi).

(** The six low bits of a continuation byte. *)
Definition low6 (c : ascii) : Z := Z.land (byte_value c) 63.

(** [utf8.DecodeRuneInString(s)]: the rune at the head of [s] and its
    width in bytes.  A head that is not the start of a well-formed
    encoding (a stray continuation byte, an overlong form, a surrogate, a
    value above U+10FFFF, a sequence cut short) is [RuneError] of width
    1; the second byte of the sequences that start with E0, ED, F0 and F4
    has a narrower range than the others. *)
Definition DecodeRuneInString (s : string) : Z * nat :=
  match s with
  | EmptyString => (RuneError, 0%nat)
  | String c0 s' =>
      let s0 := byte_value c0 in
      if s0 <? 128 then (s0, 1%nat)
      else if in_range 194 223 c0 then
        match s' with
        | String c1 _ =>
            if in_range 128 191 c1
            then (Z.lor (Z.shiftl (Z.land s0 31) 6) (low6 c1), 2%nat)
            else (RuneError, 1%nat)
        | _ => (RuneError, 1%nat)
        end
      else if in_range 224 239 c0 then
        match s' with
        | String c1 (String c2 _) =>
            if in_range (if s0 =? 224 then 160 else 128)
                        (if s0 =? 237 then 159 else 191) c1
               && in_range 128 191 c2
            then (Z.lor (Z.shiftl (Z.land s0 15) 12)
                    (Z.lor (Z.shiftl (low6 c1) 6) (low6 c2)), 3%nat)
            else (RuneError, 1%nat)
        | _ => (RuneError, 1%nat)
        end
      else if in_range 240 244 c0 then
        match s' with
        | String c1 (String c2 (String c3 _)) =>
            if in_range (if s0 =? 240 then 144 else 128)
                        (if s0 =? 244 then 143 else 191) c1
               && in_range 128 191 c2 && in_range 128 191 c3
            then (Z.lor (Z.shiftl (Z.land s0 7) 18)
                    (Z.lor (Z.shiftl (low6 c1) 12)
                       (Z.lor (Z.shiftl (low6 c2) 6) (low6 c3))), 4%nat)
            else (RuneError, 1%nat)
        | _ => (RuneError, 1%nat)
        end
      else (RuneError, 1%nat)
  end.

Fixpoint drop_bytes (n : nat) (s : string) : string :=
  match n, s with
  | S n', String _ r => drop_bytes n' r
  | _, _ => s
  end.

(** The runes [ReadRune] yields from [s], each with the bytes it was read
    from; [fuel] bounds their number, and the length of [s] is enough. *)
Fixpoint runes (fuel : nat) (s : string) : list (Z * string) :=
  match fuel, s with
  | S fuel', String _ _ =>
      let '(r, size) := DecodeRuneInString s in
      (r, substring 0 size s) :: runes fuel' (drop_bytes size s)
  | _, _ => []
  end.

(** The table [space] of [fmt/scan.go]. *)
Definition space : list (Z * Z) :=
  [ (9, 13); (32, 32); (133, 133); (160, 160); (5760, 5760); (8192, 8202);
    (8232, 8233); (8239, 8239); (8287, 8287); (12288, 12288) ].

(** [func isSpace(r rune) bool] of [fmt/scan.go] *)
Definition isSpace (r : Z) : bool :=
  if 65536 <=? r then false
  else existsb (fun rng => (fst rng <=? r) && (r <=? snd rng)) space.

(** The encoding of U+FFFD. *)
Definition replacement : string :=
  String (ascii_of_nat 239) (String (ascii_of_nat 191)
    (String (ascii_of_nat 189) EmptyString)).

(** What [s.buf.writeRune(r)] appends: the bytes read, or the encoding of
    U+FFFD where they were not well formed. *)
Definition written (r : Z * string) : string :=
  if fst r =? RuneError then replacement else snd r.

(** The check [doScan] makes after the operand of [Scanln]: runes are
    read up to the newline; one that is no space is read as well and ends
    the call ("expected newline").  The result is what stays unread of
    the line, [None] when its end was read. *)
Fixpoint expect_newline (rs : list (Z * string)) : option (list (Z * string)) :=
  match rs with
  | [] => None
  | r :: rest =>
      if fst r =? 10 then Some rest
      else if isSpace (fst r) then expect_newline rest
      else Some rest
  end.

(** [s.token(true, notSpace)]: the runes up to the first space or the end
    of the line, which stays unread. *)
Fixpoint token (rs : list (Z * string)) : string * list (Z * string) :=
  match rs with
  | [] => (EmptyString, [])
  | r :: rest =>
      if isSpace (fst r) then (EmptyString, rs)
      else let '(word, rs') := token rest in (written r +:+ word, rs')
  end.

(** [doScan] for one [*string] under [Scanln]: [SkipSpace] reads the
    leading spaces (a carriage return is one of them) and gives up at a
    newline ("unexpected newline"), storing nothing; otherwise
    [convertString] stores the next word. *)
Fixpoint doScan (rs : list (Z * string)) : string * option (list (Z * string)) :=
  match rs with
  | [] => (EmptyString, None)
  | r :: rest =>
      if fst r =? 10 then (EmptyString, Some rest)
      else if isSpace (fst r) then doScan rest
      else let '(word, rs') := token rs in (word, expect_newline rs')
  end.

(** [fmt.Scanln(&input)] on a pending line, given without its line end:
    what is stored in [input], and the part of the line the call left
    unread, if any. *)
Definition Scanln_line (line : string) : string * option string :=
  let '(word, unread) := doScan (runes (String.length line) line) in
  (word, option_map (fun rs => String.concat EmptyString (map snd rs)) unread).

(** The operator's input after a read that left [unread] of its line. *)
Definition pending_input (unread : option string) (rest : list string)
    : list string :=
  match unread with
  | Some l => l :: rest
  | None => rest
  end.

Section Components.
Context {D : Type} `{Database D}.

(** [func (m *meta) HasPrimaryKey() bool] *)
Definition HasPrimaryKey : M D bool :=
  m <- get_self ;;
  match primary m with
  | Some _ => ret true
  | None =>
      match find (fun f => PrimaryKey (index_ f))
                 (map snd (map_to_list (FieldTypes' m))) with
      | Some f => set_self (set_primary (Some f) m) ;;; ret true
      | None => ret false
      end
  end.

(** [func (m *meta) GetPrimaryKey() *Field] *)
Definition GetPrimaryKey : M D (option Field) :=
  has <- HasPrimaryKey ;;
  if has then m <- get_self ;; ret (primary m)
  else panic "Primary Key is Required for but the Model".

(** [func (q *queryBuilder) Where(f *Field) *queryBuilder]: [f.name] on
    a nil pointer panics. *)
Definition Where (f : option Field) (q : queryBuilder) : M D queryBuilder :=
  match f with
  | None => panic "invalid memory address or nil pointer dereference"
  | Some f =>
      ret {| whereClauses := whereClauses q; whereArgs := whereArgs q;
             lastColumn := name f;
             setClauses := setClauses q; setArgs := setArgs q;
             lastSet := lastSet q; limit := limit q;
             operation := operation q |}
  end.

(** [func (q *queryBuilder) Exec() error] *)
Definition Exec_builder (q : queryBuilder) : M D (option error) :=
  p <- Ping ;;
  match p with
  | Some e => ret (Some e)
  | None =>
      m <- get_self ;;
      if decide (operation q = "update") then
        if decide (length (setClauses q) = 0%nat) then
          ret (Some "update failed: no FieldTypes to update")
        else if decide (whereClauses q = []) then
          ret (Some "unsafe update: WHERE clause is required")
        else
          Exec (UpdateSet (TableName m) (setClauses q) (setArgs q)
                  (whereClauses q) (whereArgs q))
      else if decide (operation q = "InsertRow") then
        ret (Some "no FieldTypes to InsertRow")
      else if decide (operation q = "delete") then
        if decide (whereClauses q = []) then
          ret (Some "unsafe delete: WHERE clause is required")
        else
          Exec (DeleteFrom (TableName m) (whereClauses q) (whereArgs q) (limit q))
      else
        ret (Some ("invalid Exec call: unknown operation '" +:+ operation q +:+ "'"))
  end.

(** [func (m *meta) InsertRow(values map[string]any) error], through
    [InsertRowBuilder.Exec]. *)
Definition InsertRow (values : gmap string any) : M D (option error) :=
  p <- Ping ;;
  match p with
  | Some e => ret (Some e)
  | None =>
      if decide (size values = 0%nat) then ret (Some "no FieldTypes to InsertRow")
      else
        m <- get_self ;;
        Exec (InsertInto (TableName m) (map_to_list values))
  end.

(** [for rows.Next() { ... }] of [Fetch]: a row without the primary-key
    column is filed under the nil key. *)
Fixpoint fetch_rows (rows : list (error + Result)) (results : Results)
    : M D (error + Results) :=
  match rows with
  | [] => ret (inr results)
  | inl e :: _ => ret (inl e)
  | inr row :: rest =>
      p <- GetPrimaryKey ;;
      match p with
      | None => panic "invalid memory address or nil pointer dereference"
      | Some pk =>
          let primaryVal := default ANil (row !! name pk) in
          fetch_rows rest (<[primaryVal := row]> results)
      end
  end.

(** [m.Get().Fetch()].  Where the source returns the rows together with
    a non-nil [rows.Err()], the model returns the error alone: every
    caller tests the error first. *)
Definition Fetch : M D (error + Results) :=
  p <- Ping ;;
  match p with
  | Some e => ret (inl e)
  | None =>
      m <- get_self ;;
      r <- query (fun d => db_select_all d (TableName m)) ;;
      match r with
      | inl e => ret (inl e)
      | inr (rows, rows_err) =>
          res <- fetch_rows rows ∅ ;;
          match res, rows_err with
          | inl e, _ => ret (inl e)
          | inr _, Some e => ret (inl e)
          | inr results, None => ret (inr results)
          end
      end
  end.

(** [func (m *meta) saveComponentToDisk() error] *)
Definition saveComponentToDisk : M D (option error) :=
  m <- get_self ;;
  write_file (component_path m) (components m).

(** [for _, localItem := range m.components { m.InsertRow(localItem) }]:
    a failed insertion is printed and the loop goes on. *)
Fixpoint insert_all (items : list (string * gmap string any)) : M D unit :=
  match items with
  | [] => ret tt
  | (_, localItem) :: rest => _ <- InsertRow localItem ;; insert_all rest
  end.

(** [m.InsertRow(v)] of the "add missing" loop, then [dbResults[k] = v]. *)
Definition insert_missing (k : string) (v : gmap string any)
    (dbResults : Results) : M D (error + Results) :=
  e <- InsertRow v ;;
  match e with
  | Some err => panic ("Failed to update the Component :" +:+ err)
  | None => ret (inr (<[AStr k := v]> dbResults))
  end.

(** The body of the "add missing" loop for one local entry; [inl err] is
    the [return err] that leaves [SyncComponentWithDB]. *)
Definition add_missing_entry (k : string) (v : gmap string any)
    (dbResults : Results) : M D (error + Results) :=
  m <- get_self ;;
  match primary m with
  | None => panic "invalid memory address or nil pointer dereference"
  | Some pk =>
      if decide (t pk = FieldTypes.Int) then
        match Atoi k with
        | (_, Some e) => ret (inl (Atoi_error k e))
        | (int_k, None) =>
            match dbResults !! AInt64 int_k with
            | Some _ => ret (inr dbResults)
            | None => insert_missing k v dbResults
            end
        end
      else
        match dbResults !! AStr k with
        | Some _ => ret (inr dbResults)
        | None => insert_missing k v dbResults
        end
  end.

(** [for k, v := range m.components { ... }] ("add missing") *)
Fixpoint add_missing (items : list (string * gmap string any))
    (dbResults : Results) : M D (error + Results) :=
  match items with
  | [] => ret (inr dbResults)
  | (k, v) :: rest =>
      r <- add_missing_entry k v dbResults ;;
      match r with
      | inl err => ret (inl err)
      | inr dbResults' => add_missing rest dbResults'
      end
  end.

(** [for k := range dbResults { ... }] ("remove stale"); the error of
    the DELETE is dropped. *)
Fixpoint remove_stale (keys : list any) : M D unit :=
  match keys with
  | [] => ret tt
  | k :: rest =>
      m <- get_self ;;
      (match components m !! Sprint k with
       | Some _ => ret tt
       | None =>
           q <- Where (primary m) Delete ;;
           _ <- Exec_builder (Is k q) ;;
           ret tt
       end) ;;;
      remove_stale rest
  end.

(** [func (m *meta) SyncComponentWithDB() error] *)
Definition SyncComponentWithDB : M D (option error) :=
  m <- get_self ;;
  if decide (size (components m) = 0%nat) then ret None
  else
    f <- Fetch ;;
    match f with
    | inl err =>
ret (Some ("[component] fetch error for " +:+ TableName m +:+ ": " +:+ err))
    | inr dbResults =>
        if decide (size dbResults = 0%nat) then
          insert_all (map_to_list (components m)) ;;; ret None
        else
          r <- add_missing (map_to_list (components m)) dbResults ;;
          match r with
          | inl err => ret (Some err)
          | inr dbResults' =>
              remove_stale (map fst (map_to_list dbResults')) ;;;
              modify_self
                (set_components (components_of_results (map_to_list dbResults'))) ;;;
              saveComponentToDisk
          end
    end.

(** [fmt.Scanln(&input)] with [input] declared just before; the error is
    dropped.  At the end of the input nothing is stored and [input] stays
    empty; otherwise the word is read from the pending line, and what the
    call left unread of that line is the next thing to be read. *)
Definition Scanln : M D string := fun s =>
  match stdin s with
  | [] => Returned "" s
  | line :: rest =>
      Returned (fst (Scanln_line line))
        {| self := self s; db := db s; files := files s;
           disk_writable := disk_writable s;
           stdin := pending_input (snd (Scanln_line line)) rest;
           trace := trace s |}
  end.

Definition conflict_prompt : string :=
  "Database is empty but the local file has data do you want to update the Database?(y/n):".

(** [func (m *meta) refreshComponentFromDB()].  The call in the
    [default] case is the recursion; [fuel] bounds its depth, and the
    outcome is [Diverged] when the bound is reached. *)
Fixpoint refreshComponentFromDB (fuel : nat) : M D unit :=
  match fuel with
  | O => fun s => Diverged s
  | S fuel' =>
      has <- HasPrimaryKey ;;
      if negb has then ret tt
      else
        f <- Fetch ;;
        match f with
        | inl _ => ret tt
        | inr results =>
            let updated := components_of_results (map_to_list results) in
            m <- get_self ;;
            if decide (size updated = 0%nat /\ (0 < size (components m))%nat) then
              emit (Prompted conflict_prompt) ;;;
              input <- Scanln ;;
              if decide (input = "y") then
                _ <- SyncComponentWithDB ;; ret tt
              else if decide (input = "n") then
                modify_self (set_components updated) ;;;
                _ <- saveComponentToDisk ;; ret tt
              else
                refreshComponentFromDB fuel'
            else
              modify_self (set_components updated) ;;;
              _ <- saveComponentToDisk ;; ret tt
        end
  end.

(** [func (m *meta) UpdateComponent(id string, value component) error] *)
Definition UpdateComponent (id : string) (value : gmap string any)
    : M D (option error) :=
  m <- get_self ;;
  match components m !! id with
  | None => ret (Some not_found)
  | Some _ =>
      set_self (set_components (<[id := value]> (components m)) m) ;;;
      q <- Where (primary m) Update_nil ;;
      e <- Exec_builder (set_columns (map_to_list value) (Is (AStr id) q)) ;;
      match e with
      | Some err => ret (Some err)
      | None =>
          m' <- get_self ;;
          match components m' !! id with
          | None => ret (Some not_found)
          | Some _ =>
              set_self (set_components (<[id := value]> (components m')) m') ;;;
              ret None
          end
      end
  end.

End Components.

(** An executed INSERT. *)
Definition is_insert (e : Event) : bool :=
  match e with
  | Executed (InsertInto _ _) => true
  | _ => false
  end.


(** The statement [UpdateComponent] builds: one [`column` = ?] per column
    of the value, keyed by the primary key. *)
Definition update_statement (m : meta) (pk : Field) (id : string)
    (value : gmap string any) : Stmt :=
  UpdateSet (TableName m)
    (map (fun c => equals_clause (fst c)) (map_to_list value))
    (map snd (map_to_list value))
    [equals_clause (name pk)] [AStr id].

(* ===================================================================== *)
(** * 9. Running the model: ASCII text                                    *)
(* ===================================================================== *)

(** The bytes [strings.TrimSpace] removes from ASCII text:
    tab, line feed, vertical tab, form feed, carriage return, space. *)
Definition ascii_is_space (c : ascii) : bool :=
  let n := N_of_ascii c in (((9 <=? n) && (n <=? 13)) || (n =? 32))%N.

Fixpoint trim_left (l : list ascii) : list ascii :=
  match l with
  | [] => []
  | c :: r => if ascii_is_space c then trim_left r else l
  end.

Definition ascii_TrimSpace (s : string) : string :=
  string_of_list_ascii
    (rev (trim_left (rev (trim_left (list_ascii_of_string s))))).

Definition ascii_IsLetter (r : Z) : bool :=
  ((65 <=? r) && (r <=? 90)) || ((97 <=? r) && (r <=? 122)).

Definition ascii_IsDigit (r : Z) : bool := (48 <=? r) && (r <=? 57).

(** Go's library on ASCII text, where a byte is a rune and case mapping
    touches the 26 letters only.  It is what the closed examples below run
    on.  The three parsers ([ParseFloat], [time.Parse], [json.Unmarshal])
    refuse every input: that is Go's answer on the empty string, and no
    example reaches them, every default value below being empty. *)
Definition AsciiGo : GoLib :=
  {| strings_ToUpper := map_string ascii_upper;
     strings_TrimSpace := ascii_TrimSpace;
     utf8_runes :=
       fun s => map (fun c => Z.of_N (N_of_ascii c)) (list_ascii_of_string s);
     unicode_IsLetter := ascii_IsLetter;
     unicode_IsDigit := ascii_IsDigit;
     strconv_ParseFloat_ok := fun _ => false;
     time_Parse_ok := fun _ _ => false;
     json_Unmarshal_ok := fun _ => false |}.

(** [CreateField().AsInt().NotNull().IsPrimary()] named [n], with the
    given length and auto-increment set. *)
Definition int_primary_key (n : string) (len : Z) : Field :=
  {| name := n; t := FieldTypes.Int; lenth := len; nullable := false;
     definition := None; defaultValue := ""; autoIncrement := true;
     index_ := {| PrimaryKey := true; Unique := false; Index := false;
                  FullText := false; Spatial := false |};
     table_name := ""; fk := None |}.

(** [CreateField().AsBigInt().NotNull().IsPrimary()] named [n], of
    length 20. *)
Definition bigint_primary_key (n : string) : Field :=
  {| name := n; t := FieldTypes.BigInt; lenth := 20; nullable := false;
     definition := None; defaultValue := ""; autoIncrement := false;
     index_ := {| PrimaryKey := true; Unique := false; Index := false;
                  FullText := false; Spatial := false |};
     table_name := ""; fk := None |}.

(** The shared state before the first goroutine of [validate] runs. *)
Definition no_fields_seen : validation_state :=
  {| fieldNames := ∅; primaryKeyCount := 0 |}.

(* ===================================================================== *)
(** * 10. Running the model: a table held in memory                       *)
(* ===================================================================== *)

(** A database with one table: whether it answers, whether the catalog
    lists the table, the catalog's columns and indexes, the name of the
    primary-key column and the rows. *)
Record MemDB := {
  reachable : bool;
  table_exists : bool;
  live_columns : list ColumnRow;
  live_indexes : list IndexRow;
  primary_column : string;
  rows : list (gmap string any)
}.

Definition with_rows (l : list (gmap string any)) (d : MemDB) : MemDB :=
  {| reachable := reachable d; table_exists := table_exists d;
     live_columns := live_columns d; live_indexes := live_indexes d;
     primary_column := primary_column d; rows := l |}.

(** The row satisfies every [`column` = ?] clause with its argument. *)
Definition row_matches (clauses : list string) (args : list any)
    (row : gmap string any) : bool :=
  forallb
    (fun ca =>
       existsb (fun cv => bool_decide (fst ca = equals_clause (fst cv))
                          && bool_decide (snd cv = snd ca))
               (map_to_list row))
    (zip clauses args).

(** The row after [SET `column` = ?, ...]. *)
Definition row_updated (clauses : list string) (args : list any)
    (row : gmap string any) : gmap string any :=
  map_imap
    (fun column v =>
       match find (fun ca => bool_decide (fst ca = equals_clause column))
                  (zip clauses args) with
       | Some ca => Some (snd ca)
       | None => Some v
       end)
    row.

Definition MemDB_Exec (d : MemDB) (statement : Stmt) : option error * MemDB :=
  match statement with
  | InsertInto _ row =>
      let r : gmap string any := list_to_map row in
      if existsb (fun r' => bool_decide (r' !! primary_column d = r !! primary_column d))
                 (rows d)
      then (Some "Duplicate entry for key 'PRIMARY'", d)
      else (None, with_rows (rows d ++ [r]) d)
  | DeleteFrom _ clauses args _ =>
      (None, with_rows (filter (fun r => row_matches clauses args r = false) (rows d)) d)
  | UpdateSet _ sets set_args clauses args =>
      (None,
       with_rows
         (map (fun r => if row_matches clauses args r
                        then row_updated sets set_args r else r)
              (rows d)) d)
  | _ => (None, d)
  end.

#[global] Instance MemDB_Database : Database MemDB := {
  db_Ping d := if reachable d then None else Some "connection refused";
  db_count_tables d _ := inr (if table_exists d then 1 else 0);
  db_show_columns d _ := inr (map inr (live_columns d));
  db_database_name d := inr "app";
  db_index_rows d _ _ column :=
    inr (map inr (filter (fun r => columnName r = column) (live_indexes d)));
  db_select_all d _ := inr (map inr (rows d), None);
  db_Exec := MemDB_Exec
}.

(** ** A "settings" table with a string primary key *)

(** [CreateField().AsVarchar(64).NotNull().IsPrimary()] named [Slug]. *)
Definition Slug_field : Field :=
  {| name := "Slug"; t := FieldTypes.VarChar; lenth := 64; nullable := false;
     definition := None; defaultValue := ""; autoIncrement := false;
     index_ := {| PrimaryKey := true; Unique := false; Index := false;
                  FullText := false; Spatial := false |};
     table_name := "settings"; fk := None |}.

Definition setting (k : string) : gmap string any := {[ "Slug" := AStr k ]}.

Definition settings_meta (local : gmap string (gmap string any))
    (live : list schema) : meta :=
  {| components := local; TableName := "settings";
     FieldTypes' := {[ "Slug" := Slug_field ]}; schemas := live;
     primary := Some Slug_field |}.

Definition settings_db (exists_ : bool) (l : list (gmap string any)) : MemDB :=
  {| reachable := true; table_exists := exists_; live_columns := [];
     live_indexes := []; primary_column := "Slug"; rows := l |}.

Definition start (m : meta) (d : MemDB) (answers : list string) : State MemDB :=
  {| self := m; db := d; files := ∅; disk_writable := true;
     stdin := answers; trace := [] |}.

(** Local keys "a" and "b", database keys "a" and "c". *)
Definition local_ab : gmap string (gmap string any) :=
  {[ "a" := setting "a"; "b" := setting "b" ]}.

Definition settings_ab_ac : State MemDB :=
  start (settings_meta local_ab []) (settings_db true [setting "a"; setting "c"]) [].

(** Local keys "a" and "b", a database without rows, and an operator who
    answers "maybe", then "n". *)
Definition settings_conflict : State MemDB :=
  start (settings_meta local_ab []) (settings_db true []) ["maybe"; "n"].



(** Local keys "a" and "b", the row "a" in the database. *)
Definition settings_a : State MemDB :=
  start (settings_meta local_ab []) (settings_db true [setting "a"]) [].

(** The same table on a database that does not answer. *)
Definition settings_offline : State MemDB :=
  start (settings_meta local_ab [])
    {| reachable := false; table_exists := true; live_columns := [];
       live_indexes := []; primary_column := "Slug"; rows := [setting "a"] |}
    [].

Definition setting_on : gmap string any :=
  {[ "Slug" := AStr "a"; "Value" := AStr "on" ]}.

(** A live column, as an earlier introspection left it. *)
Definition Slug_column : schema :=
  {| Schema.field := "Slug"; Schema.fieldType := "varchar(64)";
     Schema.nullable := "NO"; Schema.key := "PRI"; Schema.extra := "";
     Schema.defaultVal := {| sql.String := ""; sql.Valid := false |};
     Schema.isunique := false; Schema.isindex := false;
     Schema.isprimary := true |}.

(** The snapshot holds the column [Slug]; the catalog no longer lists the
    table. *)
Definition settings_dropped : State MemDB :=
  start (settings_meta ∅ [Slug_column]) (settings_db false []) [].

(** ** A table with an integer primary key *)

Definition Id_field : Field := int_primary_key "Id" 11.

Definition counters_meta (local : gmap string (gmap string any)) : meta :=
  {| components := local; TableName := "counters";
     FieldTypes' := {[ "Id" := Id_field ]}; schemas := [];
     primary := Some Id_field |}.

(** The JSON file holds the record under the key "0"; the driver returns
    the primary key of the row as the 64-bit integer 0. *)
Definition local_zero : gmap string (gmap string any) :=
  {[ "0" := {[ "Id" := AStr "0"; "Name" := AStr "zero" ]} ]}.

Definition row_zero : gmap string any :=
  {[ "Id" := AInt64 0; "Name" := AStr "zero" ]}.

Definition counters_db : MemDB :=
  {| reachable := true; table_exists := true; live_columns := [];
     live_indexes := []; primary_column := "Id"; rows := [row_zero] |}.

Definition counters_zero : State MemDB :=
  start (counters_meta local_zero) counters_db [].

(** What [Fetch] returns on [counters_zero]. *)
Definition fetched_zero : Results := {[ AInt64 0 := row_zero ]}.


(** ** A pass of the reconciler *)

(** [CreateField().AsVarchar(32)] named [Label]: a column the table does
    not have yet. *)
Definition Label_field : Field :=
  {| name := "Label"; t := FieldTypes.VarChar; lenth := 32; nullable := true;
     definition := None; defaultValue := ""; autoIncrement := false;
     index_ := {| PrimaryKey := false; Unique := false; Index := false;
                  FullText := false; Spatial := false |};
     table_name := "counters"; fk := None |}.

(** The live column [Id], ten wide where the model declares eleven. *)
Definition Id_column : schema :=
  {| Schema.field := "Id"; Schema.fieldType := "int(10)";
     Schema.nullable := "NO"; Schema.key := "PRI";
     Schema.extra := "auto_increment";
     Schema.defaultVal := {| sql.String := ""; sql.Valid := false |};
     Schema.isunique := false; Schema.isindex := false;
     Schema.isprimary := true |}.

(** A live column the model no longer declares. *)
Definition Old_column : schema :=
  {| Schema.field := "Old"; Schema.fieldType := "text";
     Schema.nullable := "YES"; Schema.key := ""; Schema.extra := "";
     Schema.defaultVal := {| sql.String := ""; sql.Valid := false |};
     Schema.isunique := false; Schema.isindex := false;
     Schema.isprimary := false |}.

Definition counters_drifted : State MemDB :=
  start
    {| components := ∅; TableName := "counters";
       FieldTypes' := {[ "Id" := Id_field; "Label" := Label_field ]};
       schemas := [Id_column; Old_column]; primary := Some Id_field |}
    counters_db
    ["y"; "y"; "y"].


(* ===================================================================== *)
(** * 11. Properties of the statements sent                               *)
(* ===================================================================== *)

(** An UPDATE carries a SET clause and a WHERE clause, a DELETE a WHERE
    clause. *)
Definition guarded (e : Event) : Prop :=
  match e with
  | Executed (UpdateSet _ sets _ wheres _) => sets <> [] /\ wheres <> []
  | Executed (DeleteFrom _ wheres _ _) => wheres <> []
  | _ => True
  end.


(** A question to the operator. *)
Definition is_prompt (e : Event) : Prop :=
  match e with
  | Prompted _ => True
  | Executed _ => False
  end.

(** The declared fields of [m], in the order its loops visit them. *)
Definition declared_fields (m : meta) : list Field :=
  map snd (map_to_list (FieldTypes' m)).

(** What a pass of the reconciler on [m] may send: the addition of a
    declared field the snapshot lacks, the change of a declared field the
    snapshot has, the removal of a live column that no declared field
    names; index statements are not constrained here. *)
Definition within_drift (m : meta) (e : Event) : Prop :=
  match e with
  | Executed (AlterAddColumn _ f) =>
      f ∈ declared_fields m /\ build_schemaMap (schemas m) !! name f = None
  | Executed (AlterChangeColumn _ f) =>
      f ∈ declared_fields m /\ is_Some (build_schemaMap (schemas m) !! name f)
  | Executed (AlterDropColumn _ c) =>
      c ∈ map Schema.field (schemas m)
      /\ c ∉ map name (declared_fields m)
  | Executed (InsertInto _ _)
  | Executed (DeleteFrom _ _ _ _)
  | Executed (UpdateSet _ _ _ _ _) => False
  | _ => True
  end.

(** The snapshot entry [syncModelSchema] builds for a column from its
    index rows. *)
Definition snapshot_entry (r : ColumnRow) (indexes : list IndexRow) : schema :=
  fold_left classify_index indexes (schema_of_row r).

(** ** A table the catalog lists, with its columns and indexes *)

Definition Id_row : ColumnRow :=
  {| col_Field := "Id"; col_Type := "int(11)"; col_Null := "NO";
     col_Key := "PRI";
     col_Default := {| sql.String := ""; sql.Valid := false |};
     col_Extra := "auto_increment" |}.

Definition Name_row : ColumnRow :=
  {| col_Field := "Name"; col_Type := "varchar(32)"; col_Null := "YES";
     col_Key := "MUL";
     col_Default := {| sql.String := ""; sql.Valid := false |};
     col_Extra := "" |}.

Definition counters_indexes : list IndexRow :=
  [ {| columnName := "Id"; indexName := "PRIMARY"; nonUnique := 0 |};
    {| columnName := "Name"; indexName := "idx_Name"; nonUnique := 1 |} ].

Definition counters_live : State MemDB :=
  start (counters_meta ∅)
    {| reachable := true; table_exists := true;
       live_columns := [Id_row; Name_row]; live_indexes := counters_indexes;
       primary_column := "Id"; rows := [] |}
    [].

(** The index rows the catalog of [counters_live] returns for a column. *)
Definition counters_indexes_of (r : ColumnRow) : list IndexRow :=
  filter (fun i => columnName i = col_Field r) counters_indexes.

(** An index row named PRIMARY. *)
Definition is_primary_row (i : IndexRow) : bool :=
  bool_decide (indexName i = "PRIMARY").

(** An index row, not named PRIMARY, whose name starts with [prefix]
    followed by an underscore or is [prefix] itself. *)
Definition has_prefix_row (prefix : string) (i : IndexRow) : bool :=
  negb (is_primary_row i) && bool_decide (split_head "_" (indexName i) = prefix).

(** Under an operator who never answers "y", [c] only asks: it returns a
    value that satisfies [Q], leaves the receiver and the database alone,
    and appends nothing but prompts to the trace. *)
Definition declines `{GoLib} {D A : Type} (c : M D A) (Q : A -> Prop) : Prop :=
  forall s : State D,
    Forall (fun a => ~ is_yes a) (stdin s) ->
    exists a s' evs,
      c s = Returned a s' /\ Q a /\
      Forall (fun a => ~ is_yes a) (stdin s') /\
      self s' = self s /\ db s' = db s /\
      trace s' = (trace s ++ evs)%list /\ Forall is_prompt evs.

(** A pass on the in-memory table in which the operator answers "n" once
    and then nothing. *)
Definition counters_declined : State MemDB :=
  start (self counters_drifted) counters_db ["n"].

(* ===================================================================== *)
(** * Theorems                                                            *)
(* ===================================================================== *)

Section TypeMapper.
Context `{GoLib}.

Lemma split_head_enum_literal (f : Field) :
  split_head "(" (enum_literal f) = "ENUM".
Proof. reflexivity. Qed.

(** For an ENUM field [Compare] accepts exactly the text it rebuilds
    from the literal list. *)
Lemma Compare_enum_iff (f : Field) (s : string) :
  t f = FieldTypes.Enum ->
  Compare f s = true <-> s = enum_literal f.
Proof.
  intros Ht. unfold Compare. rewrite Ht. split.
  - repeat (case_decide; [ discriminate | ]).
    repeat (case_decide; [ try discriminate | ]); try discriminate.
    intros Hb. apply bool_decide_eq_true in Hb. exact Hb.
  - intros ->. rewrite split_head_enum_literal. simpl.
    apply bool_decide_eq_true. reflexivity.
Qed.

(** For a field that is not an ENUM, the type mapper's own rendering is
    accepted back exactly for the twelve types of [round_trip_types]. *)
Lemma Compare_round_trip_iff (f : Field) :
  t f <> FieldTypes.Enum ->
  Compare f (fieldType_string (t f)) = true <-> t f ∈ round_trip_types.
Proof.
  intros Hne. unfold Compare, round_trip_types.
  destruct (t f) eqn:Ht; simpl; try congruence;
    (split; intros Hx;
     [ try discriminate Hx; apply list_elem_of_In; simpl; tauto
     | try reflexivity; apply list_elem_of_In in Hx; simpl in Hx;
       intuition discriminate ]).
Qed.

(** Of the 33 declared types other than ENUM, 12 pass the round trip. *)
Lemma Compare_round_trip_count :
  filter (fun ty => Compare (with_type ty CreateField) (fieldType_string ty) = true)
         (filter (fun ty => ty <> FieldTypes.Enum) FieldTypes.all)
  = round_trip_types.
Proof. reflexivity. Qed.

(** BIGINT and BLOB fall to the fallback, BINARY and UUID are rendered as
    a type [Compare] keeps for other fields. *)
Lemma Compare_round_trip_other_failures :
  Compare (AsBigInt CreateField) (fieldType_string FieldTypes.BigInt) = false /\
  Compare (AsBlob CreateField) (fieldType_string FieldTypes.Blob) = false /\
  Compare (AsBinary CreateField) (fieldType_string FieldTypes.Binary) = false /\
  Compare (AsUUID CreateField) (fieldType_string FieldTypes.UUID) = false.
Proof. repeat split; reflexivity. Qed.
End TypeMapper.

(** C2: the round trip [fieldType_string] then [Compare] is broken for a
    SMALLINT field: the type mapper has no case for [SmallInt] and renders
    it as the fallback [TEXT], which [Compare] refuses for that field,
    while [Compare] itself accepts a live [SMALLINT] for it. *)
Theorem Compare_round_trip_SmallInt `{GoLib} :
  t (AsSmallInt CreateField) <> FieldTypes.Enum /\
  fieldType_string (t (AsSmallInt CreateField)) = "TEXT" /\
  Compare (AsSmallInt CreateField)
          (fieldType_string (t (AsSmallInt CreateField))) = false /\
  Compare (AsSmallInt CreateField) "SMALLINT" = true.
Proof. repeat split; try reflexivity. discriminate. Qed.

(** C10: [IsEmpty] answers true exactly for a non-nil result set that
    holds at least one row. *)
Theorem IsEmpty_true_iff (r : option Results) :
  IsEmpty r = true <-> exists m, r = Some m /\ (0 < size m)%nat.
Proof.
  unfold IsEmpty. destruct r as [m|].
  - rewrite bool_decide_eq_true. split.
    + intros Hs. exists m. split; [ reflexivity | exact Hs ].
    + intros (m' & Heq & Hs). inversion Heq. subst. exact Hs.
  - split; [ discriminate | intros (m & Heq & _); discriminate ].
Qed.


Section ValidatorFacts.
Context `{GoLib}.

Lemma panic_if_is_Some (c : bool) (e : ValidationError)
    (rest : option ValidationError) :
  is_Some (panic_if c e rest) <-> c = true \/ is_Some rest.
Proof.
  unfold panic_if. destruct c.
  - split; [ intros _; left; reflexivity | intros _; eexists; reflexivity ].
  - split; [ intros Hr; right; exact Hr | intros [Hc | Hr]; [ discriminate | exact Hr ] ].
Qed.

Lemma is_Some_None_iff {A : Type} : is_Some (@None A) <-> False.
Proof. split; [ intros [x Hx]; discriminate | tauto ]. Qed.

Lemma auto_increment_prefix_int (ty : fieldType) :
  strings_HasPrefix (strings_ToLower (fieldType_string ty)) "int" = true
  <-> ty = FieldTypes.Int.
Proof. destruct ty; vm_compute; split; congruence. Qed.

Lemma IsNumeric_false_not_Int (ty : fieldType) :
  IsNumeric ty = false -> ty <> FieldTypes.Int.
Proof. intros Hn ->. discriminate Hn. Qed.

Lemma length_policy_VarChar_0 (f : Field) :
  t f = FieldTypes.VarChar -> lenth f = 0 -> length_policy f <> None.
Proof. intros Ht Hl. unfold length_policy. rewrite Ht, Hl. discriminate. Qed.

Lemma definition_values_nil (f : Field) :
  definition_values f = [] <-> definition f = None \/ definition f = Some [].
Proof.
  unfold definition_values. destruct (definition f) as [l|].
  - split; [ intros ->; right; reflexivity | intros [Hd | Hd]; congruence ].
  - split; [ left; reflexivity | reflexivity ].
Qed.

(** [Validate] panics exactly when one of its own tests fires. *)
Lemma Validate_fails_iff (f : Field) :
  is_Some (Validate f) <->
    illegal_name f \/
    length_policy f <> None \/
    (autoIncrement f = true /\ IsNumeric (t f) = false) \/
    (PrimaryKey (index_ f) = true /\ nullable f = true) \/
    ((Unique (index_ f) = true \/ Index (index_ f) = true)
       /\ (t f = FieldTypes.Text \/ t f = FieldTypes.Blob)) \/
    (defaultValue f <> "" /\ IsValueCompatible (t f) (defaultValue f) = false).
Proof.
  unfold Validate, illegal_name.
  rewrite !panic_if_is_Some.
  destruct (length_policy f) as [e|] eqn:Hlp.
  - split; [ intros _ | intros _; do 4 right; eexists; reflexivity ].
    right. left. discriminate.
  - rewrite !panic_if_is_Some, is_Some_None_iff.
    rewrite !andb_true_iff, !orb_true_iff, !negb_true_iff,
      !bool_decide_eq_true, !bool_decide_eq_false.
    intuition congruence.
Qed.
End ValidatorFacts.

Section ValidatorClaims.
Context `{GoLib}.

(** The checks made on one field fail exactly when the field breaks one
    of the six listed invariants or one of the further ones. *)
Lemma field_checks_fails_iff (f : Field) :
  is_Some (field_checks f) <-> listed_violation f \/ further_violation f.
Proof.
  unfold field_checks, listed_violation, further_violation.
  rewrite !panic_if_is_Some, Validate_fails_iff.
  rewrite definition_values_nil.
  rewrite !andb_true_iff, !negb_true_iff, !bool_decide_eq_true,
    !bool_decide_eq_false.
  pose proof (auto_increment_prefix_int (t f)) as Hint.
  pose proof (IsNumeric_false_not_Int (t f)) as Hnum.
  pose proof (length_policy_VarChar_0 f) as Hvc.
  destruct (strings_HasPrefix (strings_ToLower (fieldType_string (t f))) "int").
  - assert (Ht : t f = FieldTypes.Int) by (apply Hint; reflexivity).
    destruct (PrimaryKey (index_ f)), (Unique (index_ f)), (nullable f),
      (autoIncrement f), (Index (index_ f));
      intuition (try congruence; try discriminate).
  - assert (Ht : t f <> FieldTypes.Int) by (intros Hx; apply Hint in Hx; discriminate).
    destruct (PrimaryKey (index_ f)), (Unique (index_ f)), (nullable f),
      (autoIncrement f), (Index (index_ f));
      intuition (try congruence; try discriminate).
Qed.

(** An auto-increment, non-nullable primary key of type INT with a legal
    name, a positive length and no default passes every check. *)
Lemma field_checks_int_primary_key (n : string) (len : Z) :
  n <> "" ->
  isAlphaNumeric n = true ->
  unicode_IsLetter (first_byte_rune n) = true ->
  strings_ToUpper n ∉ sqlKeywords ->
  1 <= len ->
  field_checks (int_primary_key n len) = None.
Proof.
  intros Hn Ha Hl Hk Hlen.
  unfold field_checks, Validate, length_policy, int_primary_key; simpl.
  rewrite Ha, Hl. simpl.
  rewrite (bool_decide_eq_false_2 _ Hn), (bool_decide_eq_false_2 _ Hk). simpl.
  destruct (len <? 1) eqn:Hlt; [ apply Z.ltb_lt in Hlt; lia | reflexivity ].
Qed.
End ValidatorClaims.

(** C8 (as amended): on a field whose name no other field of the table
    has taken, validation fails exactly when the field breaks one of the
    six listed invariants or one of the further ones the code tests: an
    illegal name, a definition list of length 0, a primary key that is
    not INT or VARCHAR or that has a default, auto-increment off a
    primary key or off INT, the length policy of the type, UNIQUE or
    INDEX on TEXT or BLOB, a default the type does not accept. *)
Theorem validate_field_fails_iff `{GoLib} (f : Field) (st : validation_state) :
  name f ∉ fieldNames st ->
  is_Some (snd (validate_field f st)) <->
    listed_violation f \/ further_violation f.
Proof.
  intros Hfresh. unfold validate_field.
  destruct (decide (name f ∈ fieldNames st)) as [Hin | _]; [ contradiction | ].
  simpl. apply field_checks_fails_iff.
Qed.

Lemma validate_field_fails_iff_witness :
  (name (int_primary_key "id" 11) ∉ fieldNames no_fields_seen) /\
  (is_Some (snd (@validate_field AsciiGo (int_primary_key "id" 11) no_fields_seen))
   <-> @listed_violation (int_primary_key "id" 11)
       \/ @further_violation AsciiGo (int_primary_key "id" 11)).
Proof.
  split.
  - simpl. set_solver.
  - apply (@validate_field_fails_iff AsciiGo (int_primary_key "id" 11) no_fields_seen).
    simpl. set_solver.
Defined.

(** C8 (as stated) fails: the auto-increment, non-nullable INT primary key
    named "id" that leaves its length at 0 breaks none of the six listed
    invariants, and validation refuses it; so it does the non-nullable
    BIGINT primary key named "id" of length 20. *)
Lemma validate_listed_only_counterexample :
  ((~ listed_violation (int_primary_key "id" 0)) /\
   snd (@validate_field AsciiGo (int_primary_key "id" 0) no_fields_seen)
     = Some PositiveLengthRequired)
  /\
  ((~ listed_violation (bigint_primary_key "id")) /\
   snd (@validate_field AsciiGo (bigint_primary_key "id") no_fields_seen)
     = Some PrimaryTypeNotAllowed).
Proof.
  split; split.
  - unfold listed_violation. simpl. intuition discriminate.
  - vm_compute. reflexivity.
  - unfold listed_violation. simpl. intuition discriminate.
  - vm_compute. reflexivity.
Qed.

(** The fields of the examples pass validation. *)
Lemma example_fields_validate :
  @validate AsciiGo [int_primary_key "id" 11] = None /\
  @validate AsciiGo [Slug_field] = None /\
  @validate AsciiGo [Id_field; Label_field] = None.
Proof. repeat split; vm_compute; reflexivity. Qed.


(** ** The events a computation adds to the trace *)

Section Emits.
Context {D : Type}.

Lemma emits_silent {A} (P : Event -> Prop) (c : M D A) :
  (forall s, trace (final_state (c s)) = trace s) -> emits P c.
Proof.
  intros Hc s. exists []. rewrite Hc, app_nil_r. split; [ reflexivity | constructor ].
Qed.

Lemma emits_ret {A} (P : Event -> Prop) (a : A) : emits P (ret (D := D) a).
Proof. apply emits_silent. reflexivity. Qed.

Lemma emits_panic {A} (P : Event -> Prop) (msg : string) :
  emits P (panic (D := D) (A := A) msg).
Proof. apply emits_silent. reflexivity. Qed.

Lemma emits_get_self (P : Event -> Prop) : emits P (get_self (D := D)).
Proof. apply emits_silent. reflexivity. Qed.

Lemma emits_set_self (P : Event -> Prop) (m : meta) :
  emits P (set_self (D := D) m).
Proof. apply emits_silent. reflexivity. Qed.

Lemma emits_read_answer (P : Event -> Prop) : emits P (read_answer (D := D)).
Proof.
  apply emits_silent. intros s. unfold read_answer.
  destruct (stdin s); reflexivity.
Qed.

Lemma emits_emit (P : Event -> Prop) (e : Event) :
  P e -> emits P (emit (D := D) e).
Proof.
  intros He s. exists [e]. split; [ reflexivity | repeat constructor; exact He ].
Qed.

Lemma emits_bind {A B} (P : Event -> Prop) (c : M D A) (k : A -> M D B) :
  emits P c -> (forall a, emits P (k a)) -> emits P (bind c k).
Proof.
  intros Hc Hk s. unfold bind.
  destruct (Hc s) as (evs & Ht & Hall).
  destruct (c s) as [a s' | msg s' | s'] eqn:Hcs; simpl in Ht.
  - destruct (Hk a s') as (evs' & Ht' & Hall').
    exists (evs ++ evs')%list. rewrite Ht', Ht, app_assoc.
    split; [ reflexivity | apply Forall_app; split; assumption ].
  - exists evs. split; assumption.
  - exists evs. split; assumption.
Qed.

Lemma emits_then_bind {A B} (P Q : Event -> Prop) (c : M D A) (k : A -> M D B) :
  emits P c -> (forall a, emits Q (k a)) -> emits_then P Q (bind c k).
Proof.
  intros Hc Hk s. unfold bind.
  destruct (Hc s) as (evs & Ht & Hall).
  destruct (c s) as [a s' | msg s' | s'] eqn:Hcs; simpl in Ht.
  - destruct (Hk a s') as (evs' & Ht' & Hall').
    exists evs, evs'. rewrite Ht', Ht, app_assoc.
    split; [ reflexivity | split; assumption ].
  - exists evs, []. rewrite app_nil_r. repeat split; [ assumption .. | constructor ].
  - exists evs, []. rewrite app_nil_r. repeat split; [ assumption .. | constructor ].
Qed.

Context `{Database D}.

Lemma emits_Ping (P : Event -> Prop) : emits P (Ping (D := D)).
Proof. apply emits_silent. reflexivity. Qed.

Lemma emits_query {A} (P : Event -> Prop) (q : D -> A) : emits P (query q).
Proof. apply emits_silent. reflexivity. Qed.

Lemma emits_Exec (P : Event -> Prop) (statement : Stmt) :
  P (Executed statement) -> emits P (Exec statement).
Proof.
  intros He s. exists [Executed statement]. unfold Exec.
  destruct (db_Exec (db s) statement) as [e d]. simpl.
  split; [ reflexivity | repeat constructor; exact He ].
Qed.
End Emits.

(** Splits a computation along its binds and branches. *)
Ltac emits_step :=
  first
    [ apply emits_bind; [ | intros ? ]
    | apply emits_ret | apply emits_panic | apply emits_get_self
    | apply emits_set_self | apply emits_read_answer | apply emits_Ping
    | apply emits_query
    | apply emits_emit; first [ reflexivity | exact I ]
    | apply emits_Exec; first [ reflexivity | exact I ]
    | match goal with
      | |- emits _ (match ?x with _ => _ end) => destruct x
      | |- emits _ (if ?b then _ else _) => destruct b
      end ].

Section ReconcilerFacts.
Context {D : Type} `{Database D} `{GoLib}.

Lemma emits_ask (P : Event -> Prop) (prompt : string) :
  P (Prompted prompt) -> emits P (ask (D := D) prompt).
Proof.
  intros Hp. unfold ask.
  apply emits_bind; [ apply emits_emit; exact Hp | intros _ ].
  repeat emits_step.
Qed.











Lemma emits_addField (field : Field) : emits only_add (addField field).
Proof. unfold addField. repeat emits_step. Qed.

Lemma emits_add_pending_fields (pending : list Field) :
  emits only_add (add_pending_fields (D := D) pending).
Proof.
  induction pending as [| field rest IH]; simpl.
  - apply emits_ret.
  - apply emits_bind; [ apply emits_addField | intros _; exact IH ].
Qed.

(** The text of a reason decides whether it reports a length mismatch. *)
Lemma elem_of_note (r : string) (c : bool) (reason : string)
    (acc : list string * bool) :
  r ∈ fst (note c reason acc) <-> r ∈ fst acc \/ (c = true /\ r = reason).
Proof.
  unfold note. destruct c; simpl.
  - rewrite elem_of_app, list_elem_of_singleton. intuition.
  - intuition discriminate.
Qed.

Lemma length_test_iff (live declared : Z) :
  negb ((live =? 1) && (declared =? 0)) && negb (live =? declared) = true
  <-> live <> declared /\ ~ (live = 1 /\ declared = 0).
Proof.
  destruct (Z.eqb_spec live 1), (Z.eqb_spec declared 0),
    (Z.eqb_spec live declared); simpl;
    split; intros Hx; try discriminate Hx; try reflexivity; try lia.
Qed.
End ReconcilerFacts.

(** ** What a pass leaves of the state, and what it collects *)

Section FrameFacts.
Context {D : Type}.

Lemma bind_Returned {A B} (c : M D A) (k : A -> M D B) (s s' : State D) (b : B) :
  bind c k s = Returned b s' ->
  exists a s1, c s = Returned a s1 /\ k a s1 = Returned b s'.
Proof.
  unfold bind. destruct (c s) as [a s1 | msg s1 | s1]; intros Hk;
    [ exists a, s1; split; [ reflexivity | exact Hk ] | discriminate Hk .. ].
Qed.












Context `{Database D}.




End FrameFacts.


Section PassFacts.
Context {D : Type} `{Database D} `{GoLib}.













(** ** What the comparison pass collects *)

(** A field the snapshot has is never collected; a field it lacks is
    collected or not. *)
Lemma sync_field_result (schemaMap : gmap string schema) (field : Field)
    (pending p' : list Field) (s s' : State D) :
  sync_field schemaMap field pending s = Returned p' s' ->
  p' = pending \/ (schemaMap !! name field = None /\ p' = (pending ++ [field])%list).
Proof.
  unfold sync_field. destruct (schemaMap !! name field) as [sc|].
  - destruct (drift_reasons field sc) as [reasons shouldChange]. intros Hrun.
    do 4 (apply bind_Returned in Hrun as (? & ? & _ & Hrun)).
    left. inversion Hrun. reflexivity.
  - intros Hrun. apply bind_Returned in Hrun as (a & s1 & _ & Hrun).
    destruct (fst a); inversion Hrun; [ right | left ]; auto.
Qed.


Lemma sync_fields_sublist (schemaMap : gmap string schema) (fields : list Field) :
  forall (pending p' : list Field) (s s' : State D),
    sync_fields schemaMap fields pending s = Returned p' s' ->
    exists l, p' = (pending ++ l)%list
              /\ l `sublist_of` filter (fun f => schemaMap !! name f = None) fields.
Proof.
  induction fields as [| field rest IH]; intros pending p' s s' Hrun; simpl in Hrun.
  - inversion Hrun. exists []. rewrite app_nil_r. split; [ reflexivity | constructor ].
  - apply bind_Returned in Hrun as (p1 & s1 & Hfield & Hrest).
    destruct (IH _ _ _ _ Hrest) as (l & -> & Hsub).
    rewrite filter_cons.
    destruct (sync_field_result _ _ _ _ _ _ Hfield) as [-> | [Hnone ->]].
    + exists l. split; [ reflexivity | ].
      destruct (decide (schemaMap !! name field = None));
        [ apply sublist_cons | ]; exact Hsub.
    + exists (field :: l). rewrite <- app_assoc. split; [ reflexivity | ].
      destruct (decide (schemaMap !! name field = None)) as [_ | Hno];
        [ apply sublist_skip; exact Hsub | contradiction ].
Qed.


(** What [compare_and_remove] returns is what its first loop collected. *)
Lemma compare_and_remove_collects (s s1 : State D) (pending : list Field) :
  compare_and_remove s = Returned pending s1 ->
  exists s0,
    sync_fields (build_schemaMap (schemas (self s)))
      (map snd (map_to_list (FieldTypes' (self s)))) [] s
    = Returned pending s0.
Proof.
  unfold compare_and_remove. unfold bind at 1. unfold get_self. intros Hrun.
  apply bind_Returned in Hrun as (p & s0 & Hfields & Hrun).
  apply bind_Returned in Hrun as (u & s2 & _ & Hrun).
  inversion Hrun. subst. exists s0. exact Hfields.
Qed.

(** ** What the last loop applies *)


End PassFacts.

(** A recorded reason that reports a length mismatch comes from the
    length test of [syncTableSchema]. *)
Lemma flagged_length_test `{GoLib} (field : Field) (sc : schema) (r : string) :
  r ∈ fst (drift_reasons field sc) ->
  is_length_mismatch r = true ->
  negb ((snd (parseSQLType sc) =? 1) && (lenth field =? 0))
  && negb (snd (parseSQLType sc) =? lenth field) = true.
Proof.
  unfold drift_reasons. destruct (parseSQLType sc) as [ty live]. simpl snd.
  intros Hin Hlm.
  repeat (apply elem_of_note in Hin; destruct Hin as [Hin | [Hc ->]]);
    try (exfalso; revert Hlm; vm_compute; congruence).
  - simpl in Hin. inversion Hin.
  - exact Hc.
Qed.

(** C4: for a declared field and its live column, a length-mismatch reason
    is recorded exactly when the live length differs from the declared one
    and the pair is not live 1 against declared 0. *)
Theorem length_mismatch_recorded_iff `{GoLib} (field : Field) (sc : schema) :
  (exists r, r ∈ fst (drift_reasons field sc) /\ is_length_mismatch r = true)
  <-> (snd (parseSQLType sc) <> lenth field
       /\ ~ (snd (parseSQLType sc) = 1 /\ lenth field = 0)).
Proof.
  rewrite <- length_test_iff. split.
  - intros (r & Hin & Hlm). exact (flagged_length_test field sc r Hin Hlm).
  - unfold drift_reasons. destruct (parseSQLType sc) as [ty live]. simpl snd.
    intros Hc. exists (length_mismatch_text live (lenth field)).
    split; [ | reflexivity ].
    do 3 (apply elem_of_note; left).
    apply elem_of_note. right. split; [ exact Hc | reflexivity ].
Qed.



(** A live length of 1 against a declared length of 0 is never reported. *)
Lemma length_1_against_0_not_flagged `{GoLib} (field : Field) (sc : schema) :
  snd (parseSQLType sc) = 1 ->
  lenth field = 0 ->
  forall r, r ∈ fst (drift_reasons field sc) -> is_length_mismatch r = false.
Proof.
  intros Hlive Hdecl r Hin.
  destruct (is_length_mismatch r) eqn:Hr; [ exfalso | reflexivity ].
  pose proof (flagged_length_test field sc r Hin Hr) as Htest.
  rewrite Hlive, Hdecl in Htest. discriminate Htest.
Qed.

(** A pass on the in-memory table: the column [Id] is changed, the stale
    column [Old] is dropped, and the new column [Label], asked about
    first, is added last. *)
Lemma syncTableSchema_example_trace :
  trace (final_state (@syncTableSchema _ _ AsciiGo counters_drifted))
  = [ Prompted "Field 'Id' requires update (length mismatch(old:10:new:11)). Proceed? (y/n): ";
      Executed (AlterChangeColumn "counters" Id_field);
      Prompted "Field 'Label' not in DB. Add? (y/n): ";
      Prompted "Field 'Old' exists in DB but not in model. Delete? (y/n): ";
      Executed (AlterDropColumn "counters" "Old");
      Executed (AlterAddColumn "counters" Label_field) ].
Proof. vm_compute. reflexivity. Qed.


(** C1: on local keys "a", "b" and database keys "a", "c" the sync returns
    without error, inserts "b" and deletes "c", so that the table holds
    "a" and "b"; the in-memory set and the file it rewrites hold "a", "b"
    and "c": the rows fetched before the deletion, not the table after it. *)
Theorem SyncComponentWithDB_keeps_deleted_key :
  exists s',
    SyncComponentWithDB settings_ab_ac = Returned None s' /\
    trace s' = [ Executed (InsertInto "settings" [("Slug", AStr "b")]);
                 Executed (DeleteFrom "settings" ["`Slug` = ?"] [AStr "c"] 0) ] /\
    rows (db s') = [setting "a"; setting "b"] /\
    dom (components (self s')) = ({[ "a"; "b"; "c" ]} : gset string) /\
    files s' !! "components/settings.component.json" = Some (components (self s')).
Proof.
  eexists. split; [ vm_compute; reflexivity | ].
  repeat split; vm_compute; reflexivity.
Qed.

Section ComponentFacts.
Context {D : Type} `{Database D}.

(** *** What the component operations add to the trace *)








Lemma emits_Where (P : Event -> Prop) (f : option Field) (q : queryBuilder) :
  emits P (Where (D := D) f q).
Proof. unfold Where. destruct f; [ apply emits_ret | apply emits_panic ]. Qed.

Lemma emits_Exec_builder_no_insert (q : queryBuilder) :
  emits (fun e => is_insert e = false) (Exec_builder q).
Proof. unfold Exec_builder. repeat emits_step. Qed.

Lemma emits_remove_stale_no_insert (keys : list any) :
  emits (fun e => is_insert e = false) (remove_stale (D := D) keys).
Proof.
  induction keys as [| k rest IH]; simpl.
  - apply emits_ret.
  - apply emits_bind; [ apply emits_get_self | intros m ].
    apply emits_bind; [ | intros _; exact IH ].
    destruct (components m !! Sprint k); [ apply emits_ret | ].
    apply emits_bind; [ apply emits_Where | intros q ].
    apply emits_bind; [ apply emits_Exec_builder_no_insert | intros _ ].
    apply emits_ret.
Qed.

(** *** With a primary key at hand, reading leaves the state alone *)

Lemma HasPrimaryKey_Some (s : State D) (pk : Field) :
  primary (self s) = Some pk -> HasPrimaryKey s = Returned true s.
Proof.
  intros Hpk. unfold HasPrimaryKey, bind, get_self. rewrite Hpk. reflexivity.
Qed.

Lemma GetPrimaryKey_Some (s : State D) (pk : Field) :
  primary (self s) = Some pk -> GetPrimaryKey s = Returned (Some pk) s.
Proof.
  intros Hpk. unfold GetPrimaryKey, bind.
  rewrite (HasPrimaryKey_Some s pk Hpk). unfold get_self, ret.
  rewrite Hpk. reflexivity.
Qed.

Lemma fetch_rows_state (s : State D) (pk : Field)
    (rows : list (error + Result)) :
  primary (self s) = Some pk ->
  forall results, exists r, fetch_rows rows results s = Returned r s.
Proof.
  intros Hpk. induction rows as [| [e | row] rest IH]; intros results; simpl.
  - eexists. reflexivity.
  - eexists. reflexivity.
  - unfold bind. rewrite (GetPrimaryKey_Some s pk Hpk). apply IH.
Qed.

Lemma Fetch_state (s s1 : State D) (pk : Field) (r : error + Results) :
  primary (self s) = Some pk -> Fetch s = Returned r s1 -> s1 = s.
Proof.
  intros Hpk. unfold Fetch, bind, Ping, get_self, query, ret.
  destruct (db_Ping (db s)); [ intros Hx; inversion Hx; reflexivity | ].
  destruct (db_select_all (db s) (TableName (self s))) as [e | [rows rows_err]];
    [ intros Hx; inversion Hx; reflexivity | ].
  destruct (fetch_rows_state s pk rows Hpk ∅) as (res & ->).
  destruct res, rows_err; intros Hx; inversion Hx; reflexivity.
Qed.


(** *** The "add missing" loop on an integer primary key *)

Lemma add_missing_entry_present (s : State D) (pk : Field) (k : string)
    (v : gmap string any) (dbResults : Results) (z : Z) :
  primary (self s) = Some pk ->
  t pk = FieldTypes.Int ->
  Atoi k = (z, None) ->
  is_Some (dbResults !! AInt64 z) ->
  add_missing_entry k v dbResults s = Returned (inr dbResults) s.
Proof.
  intros Hpk Hint Hatoi [row Hrow].
  unfold add_missing_entry, bind, get_self. rewrite Hpk.
  destruct (decide (t pk = FieldTypes.Int)) as [_ | Hne]; [ | contradiction ].
  rewrite Hatoi, Hrow. reflexivity.
Qed.

Lemma add_missing_all_present (s : State D) (pk : Field)
    (items : list (string * gmap string any)) (dbResults : Results) :
  primary (self s) = Some pk ->
  t pk = FieldTypes.Int ->
  (forall k v, (k, v) ∈ items ->
     exists z, Atoi k = (z, None) /\ is_Some (dbResults !! AInt64 z)) ->
  add_missing items dbResults s = Returned (inr dbResults) s.
Proof.
  intros Hpk Hint. induction items as [| [k v] rest IH]; intros Hall; simpl.
  - reflexivity.
  - destruct (Hall k v) as (z & Hatoi & Hin); [ apply list_elem_of_here | ].
    unfold bind.
    rewrite (add_missing_entry_present s pk k v dbResults z Hpk Hint Hatoi Hin).
    apply IH. intros k' v' Hin'. apply (Hall k' v'), list_elem_of_further, Hin'.
Qed.

(** *** "Remove stale" returns and touches the database only *)

Lemma Exec_builder_returns (s : State D) (q : queryBuilder) :
  exists e s', Exec_builder q s = Returned e s' /\
    self s' = self s /\ files s' = files s /\
    disk_writable s' = disk_writable s /\ stdin s' = stdin s.
Proof.
  unfold Exec_builder, bind, Ping, get_self, ret, Exec.
  destruct (db_Ping (db s)); [ eexists _, _; repeat split | ].
  repeat case_decide;
    try (eexists _, _; repeat split; fail);
    match goal with
    | |- context [db_Exec ?d ?st] => destruct (db_Exec d st)
    end; eexists _, _; repeat split.
Qed.

Lemma remove_stale_returns (keys : list any) :
  forall (s : State D) (pk : Field),
    primary (self s) = Some pk ->
    exists s', remove_stale keys s = Returned tt s' /\
      self s' = self s /\ files s' = files s /\
      disk_writable s' = disk_writable s /\ stdin s' = stdin s.
Proof.
  induction keys as [| k rest IH]; intros s pk Hpk; simpl.
  - exists s. repeat split.
  - unfold bind at 1. unfold get_self. unfold bind at 1.
    destruct (components (self s) !! Sprint k).
    + unfold ret. apply (IH s pk Hpk).
    + unfold bind at 1. unfold Where. rewrite Hpk. unfold ret at 1.
      unfold bind at 1.
      match goal with
      | |- context [Exec_builder ?q s] =>
          destruct (Exec_builder_returns s q)
            as (e & s1 & -> & Hself & Hfiles & Hdisk & Hin)
      end.
      unfold ret.
      destruct (IH s1 pk) as (s' & Hrun & Hself' & Hfiles' & Hdisk' & Hin');
        [ rewrite Hself; exact Hpk | ].
      exists s'. rewrite Hrun. repeat split; congruence.
Qed.
Lemma remove_stale_all_present (keys : list any) (s : State D) :
  (forall k, k ∈ keys -> is_Some (components (self s) !! Sprint k)) ->
  remove_stale keys s = Returned tt s.
Proof.
  induction keys as [| k rest IH]; intros Hall; simpl.
  - reflexivity.
  - unfold bind at 1. unfold get_self. unfold bind at 1.
    destruct (Hall k (list_elem_of_here _ _)) as [row ->]. unfold ret.
    apply IH. intros k' Hin. apply Hall, list_elem_of_further, Hin.
Qed.

(** *** What the sync keeps of the rows it fetched *)

Lemma InsertRow_returns (s : State D) (v : gmap string any) :
  exists e s', InsertRow v s = Returned e s' /\ self s' = self s.
Proof.
  unfold InsertRow, bind, Ping, get_self, ret, Exec.
  destruct (db_Ping (db s)); [ eexists _, _; split; reflexivity | ].
  case_decide; [ eexists _, _; split; reflexivity | ].
  match goal with
  | |- context [db_Exec ?d ?st] => destruct (db_Exec d st)
  end.
  eexists _, _; split; reflexivity.
Qed.

Lemma insert_missing_grows (s s1 : State D) (k : string) (v : gmap string any)
    (dbResults dbResults' : Results) :
  insert_missing k v dbResults s = Returned (inr dbResults') s1 ->
  self s1 = self s /\ dbResults' = <[AStr k := v]> dbResults.
Proof.
  unfold insert_missing, bind.
  destruct (InsertRow_returns s v) as (e & s' & -> & Hself).
  destruct e; [ discriminate | ].
  unfold ret. intros Hx. inversion Hx. subst. split; [ exact Hself | reflexivity ].
Qed.

Lemma add_missing_entry_grows (s s1 : State D) (k : string)
    (v : gmap string any) (dbResults dbResults' : Results) :
  add_missing_entry k v dbResults s = Returned (inr dbResults') s1 ->
  self s1 = self s /\
  forall key, is_Some (dbResults !! key) -> is_Some (dbResults' !! key).
Proof.
  assert (Hgrow : forall key, is_Some (dbResults !! key) ->
                   is_Some (<[AStr k := v]> dbResults !! key)).
  { intros key Hkey. rewrite lookup_insert. case_decide; [ eexists; reflexivity | exact Hkey ]. }
  unfold add_missing_entry, bind, get_self.
  destruct (primary (self s)) as [pk |]; [ | discriminate ].
  case_decide.
  - destruct (Atoi k) as [z [e |]]; [ discriminate | ].
    destruct (dbResults !! AInt64 z).
    + unfold ret. intros Hx. inversion Hx. subst. split; [ reflexivity | tauto ].
    + intros Hx. apply insert_missing_grows in Hx as [Hself ->].
      split; [ exact Hself | exact Hgrow ].
  - destruct (dbResults !! AStr k).
    + unfold ret. intros Hx. inversion Hx. subst. split; [ reflexivity | tauto ].
    + intros Hx. apply insert_missing_grows in Hx as [Hself ->].
      split; [ exact Hself | exact Hgrow ].
Qed.

Lemma add_missing_grows (items : list (string * gmap string any)) :
  forall (s s1 : State D) (dbResults dbResults' : Results),
    add_missing items dbResults s = Returned (inr dbResults') s1 ->
    self s1 = self s /\
    forall key, is_Some (dbResults !! key) -> is_Some (dbResults' !! key).
Proof.
  induction items as [| [k v] rest IH]; intros s s1 dbResults dbResults'; simpl.
  - unfold ret. intros Hx. inversion Hx. subst. split; [ reflexivity | tauto ].
  - unfold bind.
    destruct (add_missing_entry k v dbResults s) as [[e | mid] s2 | msg s2 | s2] eqn:Hentry;
      try discriminate.
    intros Hrest.
    apply add_missing_entry_grows in Hentry as [Hself1 Hkeys1].
    apply IH in Hrest as [Hself2 Hkeys2].
    split; [ congruence | intros key Hkey; apply Hkeys2, Hkeys1, Hkey ].
Qed.

Lemma remove_stale_self (keys : list any) :
  forall s s' : State D,
    remove_stale keys s = Returned tt s' -> self s' = self s.
Proof.
  induction keys as [| k rest IH]; intros s s'; simpl.
  - unfold ret. intros Hx. inversion Hx. reflexivity.
  - unfold bind at 1. unfold get_self. unfold bind at 1.
    destruct (components (self s) !! Sprint k).
    + unfold ret. apply IH.
    + unfold bind at 1. unfold Where.
      destruct (primary (self s)) as [pk |]; [ | discriminate ].
      unfold ret at 1. unfold bind at 1.
      match goal with
      | |- context [Exec_builder ?q s] =>
          destruct (Exec_builder_returns s q) as (e & s1 & -> & Hself & _)
      end.
      unfold ret. intros Hrest. apply IH in Hrest. congruence.
Qed.

Lemma components_of_results_acc (l : list (any * gmap string any)) :
  forall (acc : gmap string (gmap string any)) (x : string),
    is_Some (acc !! x) \/ (exists kv, kv ∈ l /\ Sprint (fst kv) = x) ->
    is_Some (fold_left (fun acc kv => <[Sprint (fst kv) := snd kv]> acc) l acc !! x).
Proof.
  induction l as [| kv rest IH]; intros acc x Hx; simpl.
  - destruct Hx as [Hacc | (kv & Hin & _)]; [ exact Hacc | inversion Hin ].
  - apply IH. destruct Hx as [Hacc | (kv' & Hin & Hkey)].
    + left. rewrite lookup_insert. case_decide; [ eexists; reflexivity | exact Hacc ].
    + apply elem_of_cons in Hin as [-> | Hin].
      * left. rewrite Hkey, lookup_insert_eq. eexists; reflexivity.
      * right. exists kv'. split; assumption.
Qed.

Lemma components_of_results_keys (results : Results) (k : any) :
  is_Some (results !! k) ->
  is_Some (components_of_results (map_to_list results) !! Sprint k).
Proof.
  intros [row Hrow]. unfold components_of_results.
  apply components_of_results_acc. right. exists (k, row).
  split; [ apply elem_of_map_to_list; exact Hrow | reflexivity ].
Qed.
End ComponentFacts.

(** Whatever the database, a sync that completes keeps in memory every key
    it fetched, the keys it has just asked the database to delete
    included: nothing is removed from the fetched rows before the
    in-memory set is rebuilt from them. *)
Lemma fetched_keys_stay_in_memory {D : Type} `{Database D}
    (s s' : State D) (pk : Field) (dbResults : Results) :
  primary (self s) = Some pk ->
  size (components (self s)) <> 0%nat ->
  Fetch s = Returned (inr dbResults) s ->
  size dbResults <> 0%nat ->
  SyncComponentWithDB s = Returned None s' ->
  forall k, is_Some (dbResults !! k) ->
            is_Some (components (self s') !! Sprint k).
Proof.
  intros Hpk Hlocal Hfetch Hdb. unfold SyncComponentWithDB.
  unfold bind at 1. unfold get_self.
  destruct (decide (size (components (self s)) = 0%nat)) as [Hz | _];
    [ contradiction | ].
  unfold bind at 1. rewrite Hfetch.
  destruct (decide (size dbResults = 0%nat)) as [Hz | _]; [ contradiction | ].
  unfold bind at 1.
  destruct (add_missing (map_to_list (components (self s))) dbResults s)
    as [[e | dbResults'] s1 | msg s1 | s1] eqn:Hadd; try discriminate.
  apply add_missing_grows in Hadd as [Hself1 Hkeys].
  unfold bind at 1.
  destruct (remove_stale (map fst (map_to_list dbResults')) s1)
    as [[] s2 | msg s2 | s2] eqn:Hrem; try discriminate.
  apply remove_stale_self in Hrem.
  unfold bind, modify_self, get_self, set_self, saveComponentToDisk, write_file.
  unfold bind, get_self. cbn [self disk_writable].
  destruct (disk_writable s2); intros Hx; inversion Hx; subst; clear Hx.
  intros k Hk. cbn [self components set_components].
  apply components_of_results_keys, Hkeys, Hk.
Qed.

Section ComponentClaims.
Context {D : Type} `{Database D}.














End ComponentClaims.


(** ** Component sync on an integer primary key *)

(** A primary key that validation accepts is INT or VARCHAR, so that an
    integer-typed primary key is of type [FieldTypes.Int]. *)
Lemma validated_primary_key_type `{GoLib} (f : Field) :
  PrimaryKey (index_ f) = true ->
  field_checks f = None ->
  t f = FieldTypes.Int \/ t f = FieldTypes.VarChar.
Proof.
  intros Hpk Hok.
  destruct (decide (t f = FieldTypes.Int)) as [Hi | Hi]; [ left; exact Hi | ].
  destruct (decide (t f = FieldTypes.VarChar)) as [Hv | Hv]; [ right; exact Hv | ].
  exfalso.
  assert (Hfail : is_Some (field_checks f)).
  { apply field_checks_fails_iff. right. unfold further_violation.
    right. right. left. repeat split; assumption. }
  rewrite Hok in Hfail. destruct Hfail as [e He]. discriminate.
Qed.

(** C6: with a primary key of type INT, local keys that parse to integers
    the database returned as 64-bit integer keys are found there: the sync
    returns, sends no INSERT, and leaves in memory the rows it fetched;
    when every fetched key, printed, is a local key as well, it sends no
    statement at all. *)
Theorem integer_key_not_reinserted {D : Type} `{Database D}
    (s s1 : State D) (pk : Field) (dbResults : Results) :
  primary (self s) = Some pk ->
  t pk = FieldTypes.Int ->
  size (components (self s)) <> 0%nat ->
  Fetch s = Returned (inr dbResults) s1 ->
  size dbResults <> 0%nat ->
  (forall k v, components (self s) !! k = Some v ->
     exists z, Atoi k = (z, None) /\ is_Some (dbResults !! AInt64 z)) ->
  exists e s',
    SyncComponentWithDB s = Returned e s' /\
    components (self s') = components_of_results (map_to_list dbResults) /\
    exists evs,
      trace s' = (trace s ++ evs)%list /\
      Forall (fun ev => is_insert ev = false) evs /\
      ((forall k, is_Some (dbResults !! k) ->
                  is_Some (components (self s) !! Sprint k)) ->
       evs = []).
Proof.
  intros Hpk Hint Hlocal Hfetch Hdb Hkeys.
  assert (s1 = s) by (apply (Fetch_state s s1 pk _ Hpk Hfetch)). subst s1.
  unfold SyncComponentWithDB.
  unfold bind at 1. unfold get_self.
  destruct (decide (size (components (self s)) = 0%nat)) as [Hz | _];
    [ contradiction | ].
  unfold bind at 1. rewrite Hfetch.
  destruct (decide (size dbResults = 0%nat)) as [Hz | _]; [ contradiction | ].
  unfold bind at 1.
  rewrite (add_missing_all_present s pk _ dbResults Hpk Hint).
  2:{ intros k v Hin. apply elem_of_map_to_list in Hin. exact (Hkeys k v Hin). }
  unfold bind at 1.
  destruct (remove_stale_returns (map fst (map_to_list dbResults)) s pk Hpk)
    as (s2 & Hrun & Hself & Hfiles & Hdisk & Hin).
  destruct (emits_remove_stale_no_insert (map fst (map_to_list dbResults)) s)
    as (evs & Htrace & Hevs).
  rewrite Hrun in Htrace. simpl in Htrace.
  assert (Hnone : (forall k, is_Some (dbResults !! k) ->
                             is_Some (components (self s) !! Sprint k)) ->
                  evs = []).
  { intros Hall. rewrite remove_stale_all_present in Hrun.
    - inversion Hrun; subst s2.
      apply (app_inv_head (trace s)). rewrite app_nil_r. symmetry. exact Htrace.
    - intros k Hk. apply list_elem_of_fmap in Hk as ([k' row] & -> & Hk).
      apply elem_of_map_to_list in Hk. apply Hall. eexists. exact Hk. }
  rewrite Hrun.
  unfold bind, modify_self, get_self, set_self, saveComponentToDisk, write_file.
  unfold bind, get_self. simpl.
  destruct (disk_writable s2); eexists _, _;
    (split; [ reflexivity | ]); simpl;
    (split; [ reflexivity | ]); exists evs; repeat split; assumption.
Qed.

Lemma integer_key_not_reinserted_witness :
  exists e s',
    SyncComponentWithDB counters_zero = Returned e s' /\
    components (self s') = components_of_results (map_to_list fetched_zero) /\
    exists evs,
      trace s' = (trace counters_zero ++ evs)%list /\
      Forall (fun ev => is_insert ev = false) evs /\
      ((forall k, is_Some (fetched_zero !! k) ->
                  is_Some (components (self counters_zero) !! Sprint k)) ->
       evs = []).
Proof.
  apply (integer_key_not_reinserted counters_zero counters_zero Id_field fetched_zero).
  - reflexivity.
  - reflexivity.
  - vm_compute. discriminate.
  - vm_compute. reflexivity.
  - vm_compute. discriminate.
  - intros k v Hkv. unfold counters_zero, start, counters_meta, local_zero in Hkv.
    simpl in Hkv. apply lookup_singleton_Some in Hkv as [<- _].
    exists 0. split; [ reflexivity | ].
    unfold fetched_zero. rewrite lookup_singleton_eq. eexists. reflexivity.
Defined.

(** The record under the local key "0" and the row the driver files under
    the integer 0: the sync sends nothing to the database. *)
Lemma integer_key_zero_example :
  exists s',
    SyncComponentWithDB counters_zero = Returned None s' /\
    trace s' = [] /\
    rows (db s') = [row_zero] /\
    components (self s') = {[ "0" := row_zero ]}.
Proof.
  eexists. split; [ vm_compute; reflexivity | ].
  repeat split; vm_compute; reflexivity.
Qed.

(** ** The refresh-only variant *)



(** The operator of [settings_conflict] is asked twice; the answer "n"
    empties the local set and ends the call. *)
Lemma refresh_example :
  exists s',
    refreshComponentFromDB 2 settings_conflict = Returned tt s' /\
    trace s' = [Prompted conflict_prompt; Prompted conflict_prompt] /\
    components (self s') = ∅ /\
    rows (db s') = [].
Proof.
  eexists. split; [ vm_compute; reflexivity | ].
  repeat split; vm_compute; reflexivity.
Qed.


(** ** Introspection of a table the catalog does not list *)

(** C3 (as amended): when the database answers and the catalog counts no
    such table, [syncModelSchema] returns without a panic and leaves the
    state, the snapshot list included, as it found it. *)
Theorem syncModelSchema_absent_table {D : Type} `{Database D} (s : State D) :
  db_Ping (db s) = None ->
  db_count_tables (db s) (TableName (self s)) = inr 0 ->
  syncModelSchema s = Returned tt s.
Proof.
  intros Hping Hcount.
  unfold syncModelSchema, bind, Ping, get_self, query.
  rewrite Hping, Hcount. reflexivity.
Qed.

Lemma syncModelSchema_absent_table_witness :
  syncModelSchema settings_dropped = Returned tt settings_dropped.
Proof.
  apply (syncModelSchema_absent_table settings_dropped); reflexivity.
Defined.

(** When the catalog lists the table and the columns can be read, the
    outcome does not depend on the snapshot list of an earlier call: the
    list is cleared before it is rebuilt. *)
Lemma syncModelSchema_rebuilds {D : Type} `{Database D} (s : State D)
    (count : Z) (rows : list (error + ColumnRow)) :
  db_Ping (db s) = None ->
  db_count_tables (db s) (TableName (self s)) = inr count ->
  count <> 0 ->
  db_show_columns (db s) (TableName (self s)) = inr rows ->
  syncModelSchema s
  = syncModelSchema
      {| self := set_schemas [] (self s); db := db s; files := files s;
         disk_writable := disk_writable s; stdin := stdin s;
         trace := trace s |}.
Proof.
  intros Hping Hcount Hne Hrows.
  assert (Hshape : forall s0 : State D,
            db_Ping (db s0) = None ->
            db_count_tables (db s0) (TableName (self s0)) = inr count ->
            db_show_columns (db s0) (TableName (self s0)) = inr rows ->
            syncModelSchema s0
            = (n <- query db_database_name ;;
               match n with
               | inl e => panic ("Error getting database name: " +:+ e)
               | inr dbName => scan_columns dbName rows
               end)
                {| self := set_schemas [] (self s0); db := db s0;
                   files := files s0; disk_writable := disk_writable s0;
                   stdin := stdin s0; trace := trace s0 |}).
  { intros s0 Hp Hc Hr. unfold syncModelSchema.
    unfold bind at 1. unfold Ping. rewrite Hp.
    unfold bind at 1. unfold get_self.
    unfold bind at 1. unfold query at 1. rewrite Hc.
    destruct (Z.eqb_spec count 0) as [Hz | _]; [ contradiction | ].
    unfold bind at 1. unfold query at 1. rewrite Hr.
    unfold bind at 1. unfold modify_self, bind, get_self, set_self.
    reflexivity. }
  rewrite (Hshape s Hping Hcount Hrows).
  match goal with
  | |- _ = syncModelSchema ?c => rewrite (Hshape c Hping Hcount Hrows)
  end.
  reflexivity.
Qed.

(** C3 (as stated) fails: after an earlier introspection found the column
    [Slug], an introspection that finds no table returns with that column
    still in the snapshot list. *)
Lemma syncModelSchema_absent_table_counterexample :
  db_count_tables (db settings_dropped) (TableName (self settings_dropped))
    = inr 0 /\
  exists s',
    syncModelSchema settings_dropped = Returned tt s' /\
    schemas (self s') = [Slug_column] /\
    schemas (self s') <> [].
Proof.
  split; [ reflexivity | ].
  exists settings_dropped.
  split; [ vm_compute; reflexivity | ].
  split; [ reflexivity | discriminate ].
Qed.

(** ** [UpdateComponent] *)

Section UpdateFacts.
Lemma set_columns_fields (value : list (string * any)) :
  forall q, operation q = "update" ->
    operation (set_columns value q) = "update" /\
    limit (set_columns value q) = limit q /\
    whereClauses (set_columns value q) = whereClauses q /\
    whereArgs (set_columns value q) = whereArgs q /\
    setClauses (set_columns value q)
      = (setClauses q ++ map (fun c => equals_clause (fst c)) value)%list /\
    setArgs (set_columns value q) = (setArgs q ++ map snd value)%list.
Proof.
  induction value as [| [c v] rest IH]; intros q Hop; simpl.
  - rewrite !app_nil_r. repeat split; try reflexivity. exact Hop.
  - assert (Hop' : operation (To v (SetWithFieldName c q)) = "update").
    { unfold To, SetWithFieldName. simpl. rewrite Hop. reflexivity. }
    destruct (IH _ Hop') as (H1 & H2 & H3 & H4 & H5 & H6).
    rewrite H1, H2, H3, H4, H5, H6.
    unfold To, SetWithFieldName. simpl. rewrite Hop. simpl.
    rewrite <- !app_assoc. repeat split; reflexivity.
Qed.
End UpdateFacts.

(** C9 (as amended): for an id that is not in the in-memory set
    [UpdateComponent] returns the not-found error and changes nothing.  For
    an id that is there, on a table with a primary key, it stores the value
    in memory first; then, with a database that answers the ping and a
    value with at least one column, it sends one UPDATE that sets every
    column of the value, keyed by the primary key, and returns what the
    database answers; with a database that does not answer the ping it
    returns the error of the ping, and with a value without columns the
    error of the empty update, in both cases without any statement and
    with the value already stored in memory. *)
Theorem UpdateComponent_cases {D : Type} `{Database D}
    (s : State D) (id : string) (value : gmap string any) :
  (components (self s) !! id = None ->
   UpdateComponent id value s = Returned (Some not_found) s)
  /\
  (forall pk,
     is_Some (components (self s) !! id) ->
     primary (self s) = Some pk ->
     db_Ping (db s) = None ->
     size value <> 0%nat ->
     let statement := update_statement (self s) pk id value in
     UpdateComponent id value s
     = Returned (fst (db_Exec (db s) statement))
         {| self := set_components (<[id := value]> (components (self s))) (self s);
            db := snd (db_Exec (db s) statement);
            files := files s; disk_writable := disk_writable s;
            stdin := stdin s;
            trace := trace s ++ [Executed statement] |})
  /\
  (forall pk e,
     is_Some (components (self s) !! id) ->
     primary (self s) = Some pk ->
     db_Ping (db s) = Some e ->
     UpdateComponent id value s
     = Returned (Some e)
         {| self := set_components (<[id := value]> (components (self s))) (self s);
            db := db s; files := files s; disk_writable := disk_writable s;
            stdin := stdin s; trace := trace s |})
  /\
  (forall pk,
     is_Some (components (self s) !! id) ->
     primary (self s) = Some pk ->
     db_Ping (db s) = None ->
     size value = 0%nat ->
     UpdateComponent id value s
     = Returned (Some "update failed: no FieldTypes to update")
         {| self := set_components (<[id := value]> (components (self s))) (self s);
            db := db s; files := files s; disk_writable := disk_writable s;
            stdin := stdin s; trace := trace s |}).
Proof.
  split; [ | split; [ | split ] ].
  - intros Hnone. unfold UpdateComponent, bind, get_self. rewrite Hnone. reflexivity.
  - intros pk [old Hold] Hpk Hping Hsize statement.
    unfold UpdateComponent. unfold bind at 1. unfold get_self. rewrite Hold.
    unfold bind at 1. unfold set_self. unfold bind at 1.
    simpl self. simpl primary. rewrite Hpk. unfold Where, ret.
    unfold bind at 1.
    match goal with
    | |- context [set_columns ?l ?q] =>
        destruct (set_columns_fields l q eq_refl) as (Hop & Hlim & Hwc & Hwa & Hsc & Hsa);
        set (q' := set_columns l q) in *
    end.
    simpl in Hwc, Hwa, Hsc, Hsa. clear Hlim. clearbody q'.
    unfold Exec_builder, bind, Ping, get_self, Exec. cbn [db self].
    rewrite Hping.
    destruct (decide (operation q' = "update")) as [_ | Hno]; [ | contradiction ].
    assert (Hne : map_to_list value <> []).
    { intros Hnil. apply Hsize. rewrite <- length_map_to_list, Hnil. reflexivity. }
    destruct (decide (length (setClauses q') = 0%nat)) as [Hz | _].
    { exfalso. rewrite Hsc, length_map in Hz.
      destruct (map_to_list value); [ congruence | discriminate ]. }
    destruct (decide (whereClauses q' = [])) as [Hz | _].
    { rewrite Hwc in Hz. discriminate. }
    rewrite Hsc, Hsa, Hwc, Hwa. cbn [db self TableName set_components].
    fold (update_statement (self s) pk id value). fold statement.
    destruct (db_Exec (db s) statement) as [e d] eqn:Hexec.
    cbn [fst snd files disk_writable stdin trace self].
    destruct e as [err |].
    + reflexivity.
    + unfold ret. cbn [self components set_components].
      rewrite lookup_insert_eq. unfold set_components.
      cbn [components TableName FieldTypes' schemas primary].
      rewrite insert_insert_eq. reflexivity.
  - intros pk e [old Hold] Hpk Hping.
    unfold UpdateComponent. unfold bind at 1. unfold get_self. rewrite Hold.
    unfold bind at 1. unfold set_self. unfold bind at 1.
    simpl self. simpl primary. rewrite Hpk. unfold Where, ret.
    unfold bind at 1.
    unfold Exec_builder. unfold bind at 1. unfold Ping. cbn [db].
    rewrite Hping. reflexivity.
  - intros pk [old Hold] Hpk Hping Hsize.
    apply map_size_empty_inv in Hsize. subst value.
    unfold UpdateComponent. unfold bind at 1. unfold get_self. rewrite Hold.
    unfold bind at 1. unfold set_self. unfold bind at 1.
    simpl self. simpl primary. rewrite Hpk. unfold Where, ret.
    unfold bind at 1.
    rewrite map_to_list_empty. unfold set_columns. cbn [fold_left].
    unfold Exec_builder. unfold bind at 1. unfold Ping. cbn [db].
    rewrite Hping. reflexivity.
Qed.

Lemma UpdateComponent_cases_witness :
  UpdateComponent "zz" setting_on settings_a = Returned (Some not_found) settings_a
  /\
  UpdateComponent "a" setting_on settings_a
  = Returned
      (fst (db_Exec (db settings_a)
              (update_statement (self settings_a) Slug_field "a" setting_on)))
      {| self := set_components (<["a" := setting_on]> (components (self settings_a)))
                   (self settings_a);
         db := snd (db_Exec (db settings_a)
                      (update_statement (self settings_a) Slug_field "a" setting_on));
         files := files settings_a; disk_writable := disk_writable settings_a;
         stdin := stdin settings_a;
         trace := trace settings_a
                  ++ [Executed (update_statement (self settings_a) Slug_field
                                  "a" setting_on)] |}
  /\
  UpdateComponent "a" setting_on settings_offline
  = Returned (Some "connection refused")
      {| self := set_components
                   (<["a" := setting_on]> (components (self settings_offline)))
                   (self settings_offline);
         db := db settings_offline; files := files settings_offline;
         disk_writable := disk_writable settings_offline;
         stdin := stdin settings_offline; trace := trace settings_offline |}
  /\
  UpdateComponent "a" ∅ settings_a
  = Returned (Some "update failed: no FieldTypes to update")
      {| self := set_components (<["a" := ∅]> (components (self settings_a)))
                   (self settings_a);
         db := db settings_a; files := files settings_a;
         disk_writable := disk_writable settings_a;
         stdin := stdin settings_a; trace := trace settings_a |}.
Proof.
  split; [ | split; [ | split ] ].
  - apply (proj1 (UpdateComponent_cases settings_a "zz" setting_on)). reflexivity.
  - apply (proj1 (proj2 (UpdateComponent_cases settings_a "a" setting_on)) Slug_field).
    + vm_compute. eexists. reflexivity.
    + reflexivity.
    + reflexivity.
    + vm_compute. discriminate.
  - apply (proj1 (proj2 (proj2 (UpdateComponent_cases settings_offline "a" setting_on)))
             Slug_field).
    + vm_compute. eexists. reflexivity.
    + reflexivity.
    + reflexivity.
  - apply (proj2 (proj2 (proj2 (UpdateComponent_cases settings_a "a" ∅))) Slug_field).
    + vm_compute. eexists. reflexivity.
    + reflexivity.
    + reflexivity.
    + reflexivity.
Defined.

(** On the in-memory table the call returns without error after one
    UPDATE. *)
Lemma UpdateComponent_example :
  exists s',
    UpdateComponent "a" setting_on settings_a = Returned None s' /\
    trace s' = [ Executed (UpdateSet "settings" ["`Slug` = ?"; "`Value` = ?"]
                             [AStr "a"; AStr "on"] ["`Slug` = ?"] [AStr "a"]) ] /\
    components (self s') !! "a" = Some setting_on.
Proof.
  eexists. split; [ vm_compute; reflexivity | ].
  split; vm_compute; reflexivity.
Qed.

(** C9 (as stated) fails: for the id "a", which is in the in-memory set,
    and a value without columns, the value is stored in memory and no
    statement reaches the database; the call returns an error. *)
Lemma UpdateComponent_empty_value_counterexample :
  is_Some (components (self settings_a) !! "a") /\
  exists s',
    UpdateComponent "a" ∅ settings_a
      = Returned (Some "update failed: no FieldTypes to update") s' /\
    components (self s') !! "a" = Some ∅ /\
    trace s' = [].
Proof.
  split; [ vm_compute; eexists; reflexivity | ].
  eexists. split; [ vm_compute; reflexivity | ].
  split; vm_compute; reflexivity.
Qed.

(** ** The guards of [queryBuilder.Exec] *)

(** [Exec] returns; what it sends is guarded: no UPDATE without a SET and a
    WHERE clause, no DELETE without a WHERE clause.  A builder of an
    update or a delete without a WHERE clause gets an error back and
    nothing reaches the database. *)
Theorem Exec_builder_requires_where {D : Type} `{Database D}
    (q : queryBuilder) (s : State D) :
  (exists e s' evs,
     Exec_builder q s = Returned e s' /\
     trace s' = (trace s ++ evs)%list /\ Forall guarded evs /\
     (length evs <= 1)%nat)
  /\
  (operation q <> "InsertRow" -> whereClauses q = [] ->
   exists e, Exec_builder q s = Returned (Some e) s).
Proof.
  split.
  - unfold Exec_builder, bind, Ping, get_self, ret, Exec.
    destruct (db_Ping (db s)).
    { eexists _, _, []. rewrite app_nil_r. repeat split; [ constructor | simpl; lia ]. }
    repeat case_decide;
      try (eexists _, _, []; rewrite app_nil_r;
           repeat split; [ constructor | simpl; lia ]; fail);
      match goal with
      | |- context [db_Exec ?d ?st] => destruct (db_Exec d st)
      end;
      eexists _, _, [_]; (split; [ reflexivity | ]);
      (split; [ reflexivity | ]); (split; [ | simpl; lia ]);
      repeat constructor; simpl; try assumption.
    intros Hnil. rewrite Hnil in *. simpl in *. congruence.
  - intros Hop Hwhere. unfold Exec_builder, bind, Ping, get_self, ret, Exec.
    destruct (db_Ping (db s)); [ eexists; reflexivity | ].
    repeat case_decide; try contradiction; eexists; reflexivity.
Qed.

Lemma Exec_builder_requires_where_witness :
  exists e, Exec_builder Delete settings_a = Returned (Some e) settings_a.
Proof.
  apply (proj2 (Exec_builder_requires_where Delete settings_a)).
  - discriminate.
  - reflexivity.
Defined.

(** ** The component sync on a table without rows *)

Section EmptyTable.
Context {D : Type} `{Database D}.


End EmptyTable.



Lemma fetched_keys_stay_in_memory_witness :
  is_Some (components (self (final_state (SyncComponentWithDB settings_ab_ac)))
             !! "c").
Proof.
  refine (fetched_keys_stay_in_memory settings_ab_ac
            (final_state (SyncComponentWithDB settings_ab_ac)) Slug_field
            {[ AStr "a" := setting "a"; AStr "c" := setting "c" ]}
            eq_refl _ _ _ _ (AStr "c") _).
  - vm_compute. discriminate.
  - vm_compute. reflexivity.
  - vm_compute. discriminate.
  - vm_compute. reflexivity.
  - vm_compute. eexists. reflexivity.
Defined.

(** ** The refresh when the database has rows *)

(** When the table has rows, or the local set is empty, the refresh asks
    nothing and sends nothing: the in-memory set becomes the fetched rows,
    each under its printed key, local records that the database does not
    hold are dropped, and the set is written to the component file when
    the directory can be written. *)
Theorem refresh_takes_database_rows {D : Type} `{Database D}
    (fuel : nat) (s : State D) (pk : Field) (dbResults : Results) :
  primary (self s) = Some pk ->
  Fetch s = Returned (inr dbResults) s ->
  size dbResults <> 0%nat \/ size (components (self s)) = 0%nat ->
  let updated := components_of_results (map_to_list dbResults) in
  refreshComponentFromDB (S fuel) s
  = Returned tt
      {| self := set_components updated (self s); db := db s;
         files := if disk_writable s
                  then <[component_path (self s) := updated]> (files s)
                  else files s;
         disk_writable := disk_writable s; stdin := stdin s;
         trace := trace s |}.
Proof.
  intros Hpk Hfetch Hcase updated. simpl.
  unfold bind at 1. rewrite (HasPrimaryKey_Some s pk Hpk). cbn [negb].
  unfold bind at 1. rewrite Hfetch.
  unfold bind at 1. unfold get_self. fold updated.
  destruct (decide (size updated = 0%nat /\ (0 < size (components (self s)))%nat))
    as [[Hzero Hpos] | _].
  { exfalso. destruct Hcase as [Hdb | Hlocal]; [ | lia ].
    apply Hdb. apply map_size_empty_iff. apply map_size_empty_iff in Hzero.
    apply map_eq. intros k. rewrite lookup_empty.
    destruct (dbResults !! k) as [row |] eqn:Hk; [ exfalso | reflexivity ].
    assert (Hin : is_Some (updated !! Sprint k)).
    { apply components_of_results_keys. eexists. exact Hk. }
    rewrite Hzero, lookup_empty in Hin. destruct Hin as [x Hx]. discriminate Hx. }
  unfold modify_self, saveComponentToDisk, bind, get_self, set_self, write_file, ret.
  cbn [self disk_writable components set_components TableName].
  destruct (disk_writable s); reflexivity.
Qed.

Lemma refresh_takes_database_rows_witness :
  exists s',
    refreshComponentFromDB 1 settings_a = Returned tt s' /\
    components (self s') = {[ "a" := setting "a" ]} /\
    trace s' = [].
Proof.
  eexists. split.
  - apply (refresh_takes_database_rows 0 settings_a Slug_field
             {[ AStr "a" := setting "a" ]}).
    + reflexivity.
    + vm_compute. reflexivity.
    + left. vm_compute. discriminate.
  - split; vm_compute; reflexivity.
Defined.


(** ** The in-memory set after [UpdateComponent] *)

(** However the call ends (the database refuses, does not answer, or the
    table has no primary key and the call panics), the in-memory set holds
    the new value under an id it already had, and every other entry as it
    was; for an id it did not have, the set is unchanged. *)
Theorem UpdateComponent_memory {D : Type} `{Database D}
    (s : State D) (id : string) (value : gmap string any) :
  components (self (final_state (UpdateComponent id value s)))
  = match components (self s) !! id with
    | Some _ => <[id := value]> (components (self s))
    | None => components (self s)
    end.
Proof.
  unfold UpdateComponent. unfold bind at 1. unfold get_self.
  destruct (components (self s) !! id) as [old |] eqn:Hold; [ | reflexivity ].
  unfold bind at 1. unfold set_self. unfold bind at 1. cbn [self].
  unfold Where. destruct (primary (self s)) as [pk |]; [ | reflexivity ].
  unfold ret at 1. unfold bind at 1.
  match goal with
  | |- context [Exec_builder ?q ?s1] =>
      destruct (Exec_builder_returns s1 q) as (e & s2 & -> & Hself & _)
  end.
  destruct e as [err |]; [ simpl; rewrite Hself; reflexivity | ].
  unfold bind, get_self, set_self, ret. rewrite Hself.
  cbn [self components set_components]. rewrite lookup_insert_eq.
  cbn [final_state self components set_components].
  apply insert_insert_eq.
Qed.

(** ** The snapshot of an existing table *)

Section Snapshot.
Context {D : Type} `{Database D}.

Lemma scan_index_rows_all (indexes : list IndexRow) :
  forall (sc : schema) (s : State D),
    scan_index_rows (map inr indexes) sc s
    = Returned (fold_left classify_index indexes sc) s.
Proof.
  induction indexes as [| row rest IH]; intros sc s; simpl.
  - reflexivity.
  - apply IH.
Qed.

Lemma scan_columns_all (dbName : string) (indexes : ColumnRow -> list IndexRow)
    (rows : list ColumnRow) :
  forall s : State D,
    (forall r, r ∈ rows ->
       db_index_rows (db s) dbName (TableName (self s)) (col_Field r)
       = inr (map inr (indexes r))) ->
    scan_columns dbName (map inr rows) s
    = Returned tt
        {| self := set_schemas
                     (schemas (self s)
                        ++ map (fun r => snapshot_entry r (indexes r)) rows)
                     (self s);
           db := db s; files := files s; disk_writable := disk_writable s;
           stdin := stdin s; trace := trace s |}.
Proof.
  induction rows as [| r rest IH]; intros s Hidx.
  - simpl. unfold ret. rewrite app_nil_r. destruct s as [[] ? ? ? ? ?]. reflexivity.
  - simpl. unfold bind at 1. unfold get_self. unfold bind at 1. unfold query.
    rewrite (Hidx r (list_elem_of_here _ _)).
    unfold bind at 1. rewrite scan_index_rows_all.
    unfold bind at 1. unfold modify_self, bind, get_self, set_self.
    rewrite IH.
    + cbn [self db files disk_writable stdin trace schemas set_schemas
           TableName components FieldTypes' primary].
      unfold set_schemas. cbn [schemas TableName components FieldTypes' primary].
      rewrite <- app_assoc. reflexivity.
    + intros r' Hr'. cbn [self db TableName set_schemas].
      apply Hidx, list_elem_of_further, Hr'.
Qed.
End Snapshot.

(** When the catalog lists the table and every query is answered, the
    snapshot list is replaced by one entry per column, in the order of
    [SHOW COLUMNS]; each entry holds the column as reported and the flags
    its index rows set.  Nothing else changes. *)
Theorem syncModelSchema_snapshot {D : Type} `{Database D} (s : State D)
    (count : Z) (rows : list ColumnRow) (dbName : string)
    (indexes : ColumnRow -> list IndexRow) :
  db_Ping (db s) = None ->
  db_count_tables (db s) (TableName (self s)) = inr count ->
  count <> 0 ->
  db_show_columns (db s) (TableName (self s)) = inr (map inr rows) ->
  db_database_name (db s) = inr dbName ->
  (forall r, r ∈ rows ->
     db_index_rows (db s) dbName (TableName (self s)) (col_Field r)
     = inr (map inr (indexes r))) ->
  syncModelSchema s
  = Returned tt
      {| self := set_schemas (map (fun r => snapshot_entry r (indexes r)) rows)
                   (self s);
         db := db s; files := files s; disk_writable := disk_writable s;
         stdin := stdin s; trace := trace s |}.
Proof.
  intros Hping Hcount Hne Hrows Hname Hidx. unfold syncModelSchema.
  unfold bind at 1. unfold Ping. rewrite Hping.
  unfold bind at 1. unfold get_self.
  unfold bind at 1. unfold query at 1. rewrite Hcount.
  destruct (Z.eqb_spec count 0) as [Hz | _]; [ contradiction | ].
  unfold bind at 1. unfold query at 1. rewrite Hrows.
  unfold bind at 1. unfold modify_self, bind, get_self, set_self.
  unfold query at 1. cbn [db]. rewrite Hname.
  rewrite (scan_columns_all dbName indexes rows).
  - cbn [self db files disk_writable stdin trace schemas set_schemas].
    unfold set_schemas. cbn [schemas TableName components FieldTypes' primary].
    reflexivity.
  - intros r Hr. cbn [self db TableName set_schemas]. apply Hidx, Hr.
Qed.

Lemma syncModelSchema_snapshot_witness :
  exists s',
    syncModelSchema counters_live = Returned tt s' /\
    map Schema.field (schemas (self s')) = ["Id"; "Name"] /\
    map Schema.isprimary (schemas (self s')) = [true; false] /\
    map Schema.isindex (schemas (self s')) = [false; true].
Proof.
  eexists. split.
  - apply (syncModelSchema_snapshot counters_live 1 [Id_row; Name_row] "app"
             counters_indexes_of).
    + reflexivity.
    + reflexivity.
    + discriminate.
    + reflexivity.
    + reflexivity.
    + intros r Hr. reflexivity.
  - repeat split; vm_compute; reflexivity.
Defined.

(** ** The flags of a snapshot entry *)

Lemma classify_index_flags (sc : schema) (i : IndexRow) :
  Schema.isprimary (classify_index sc i) = Schema.isprimary sc || is_primary_row i
  /\ Schema.isindex (classify_index sc i)
     = Schema.isindex sc || has_prefix_row "idx" i
  /\ Schema.isunique (classify_index sc i)
     = Schema.isunique sc || has_prefix_row "unq" i
  /\ Schema.field (classify_index sc i) = Schema.field sc
  /\ Schema.fieldType (classify_index sc i) = Schema.fieldType sc
  /\ Schema.nullable (classify_index sc i) = Schema.nullable sc
  /\ Schema.key (classify_index sc i) = Schema.key sc
  /\ Schema.defaultVal (classify_index sc i) = Schema.defaultVal sc
  /\ Schema.extra (classify_index sc i) = Schema.extra sc.
Proof.
  unfold classify_index, has_prefix_row, is_primary_row.
  destruct (decide (indexName i = "PRIMARY")) as [Hp | Hp].
  - rewrite (bool_decide_eq_true_2 _ Hp). simpl.
    rewrite !orb_false_r, orb_true_r. repeat split; reflexivity.
  - rewrite (bool_decide_eq_false_2 _ Hp). simpl. rewrite orb_false_r.
    destruct (decide (split_head "_" (indexName i) = "idx")) as [Hi | Hi].
    + rewrite (bool_decide_eq_true_2 _ Hi).
      rewrite bool_decide_eq_false_2 by (rewrite Hi; discriminate).
      simpl. rewrite orb_true_r, orb_false_r. repeat split; reflexivity.
    + rewrite (bool_decide_eq_false_2 _ Hi).
      destruct (decide (split_head "_" (indexName i) = "unq")) as [Hu | Hu].
      * rewrite (bool_decide_eq_true_2 _ Hu). simpl.
        rewrite orb_true_r, orb_false_r. repeat split; reflexivity.
      * rewrite (bool_decide_eq_false_2 _ Hu). simpl.
        rewrite !orb_false_r. repeat split; reflexivity.
Qed.

(** The flags of a snapshot entry come from the names of the index rows
    alone: primary when a row is named PRIMARY, index or unique when the
    name of another row has the first part "idx" or "unq" before an
    underscore; the value of [non_unique] decides nothing, and a flag once
    set is never cleared.  The other fields are those of the column. *)
Theorem snapshot_entry_flags (r : ColumnRow) (indexes : list IndexRow) :
  Schema.isprimary (snapshot_entry r indexes) = existsb is_primary_row indexes
  /\ Schema.isindex (snapshot_entry r indexes)
     = existsb (has_prefix_row "idx") indexes
  /\ Schema.isunique (snapshot_entry r indexes)
     = existsb (has_prefix_row "unq") indexes
  /\ Schema.field (snapshot_entry r indexes) = col_Field r
  /\ Schema.fieldType (snapshot_entry r indexes) = col_Type r
  /\ Schema.nullable (snapshot_entry r indexes) = col_Null r
  /\ Schema.key (snapshot_entry r indexes) = col_Key r
  /\ Schema.defaultVal (snapshot_entry r indexes) = col_Default r
  /\ Schema.extra (snapshot_entry r indexes) = col_Extra r.
Proof.
  unfold snapshot_entry.
  assert (Hgen : forall sc,
    Schema.isprimary (fold_left classify_index indexes sc)
      = Schema.isprimary sc || existsb is_primary_row indexes
    /\ Schema.isindex (fold_left classify_index indexes sc)
       = Schema.isindex sc || existsb (has_prefix_row "idx") indexes
    /\ Schema.isunique (fold_left classify_index indexes sc)
       = Schema.isunique sc || existsb (has_prefix_row "unq") indexes
    /\ Schema.field (fold_left classify_index indexes sc) = Schema.field sc
    /\ Schema.fieldType (fold_left classify_index indexes sc) = Schema.fieldType sc
    /\ Schema.nullable (fold_left classify_index indexes sc) = Schema.nullable sc
    /\ Schema.key (fold_left classify_index indexes sc) = Schema.key sc
    /\ Schema.defaultVal (fold_left classify_index indexes sc)
       = Schema.defaultVal sc
    /\ Schema.extra (fold_left classify_index indexes sc) = Schema.extra sc).
  { induction indexes as [| i rest IH]; intros sc; simpl.
    - rewrite !orb_false_r. repeat split; reflexivity.
    - destruct (IH (classify_index sc i))
        as (H1 & H2 & H3 & H4 & H5 & H6 & H7 & H8 & H9).
      destruct (classify_index_flags sc i)
        as (C1 & C2 & C3 & C4 & C5 & C6 & C7 & C8 & C9).
      rewrite H1, H2, H3, H4, H5, H6, H7, H8, H9.
      rewrite C1, C2, C3, C4, C5, C6, C7, C8, C9.
      rewrite !orb_assoc. repeat split; reflexivity. }
  exact (Hgen (schema_of_row r)).
Qed.

(** ** A pass in which the operator agrees to nothing *)

Section Declined.
Context {D : Type} `{Database D} `{GoLib}.
Hypothesis empty_is_not_yes : ~ is_yes EmptyString.

Lemma declines_bind {A B} (c : M D A) (k : A -> M D B)
    (Q : A -> Prop) (R : B -> Prop) :
  declines c Q -> (forall a, Q a -> declines (k a) R) -> declines (bind c k) R.
Proof.
  intros Hc Hk s Hno. unfold bind.
  destruct (Hc s Hno) as (a & s1 & evs & -> & Hq & Hin & Hself & Hdb & Ht & Hev).
  destruct (Hk a Hq s1 Hin)
    as (b & s2 & evs' & -> & Hr & Hin' & Hself' & Hdb' & Ht' & Hev').
  exists b, s2, (evs ++ evs')%list.
  split; [ reflexivity | ]. split; [ exact Hr | ]. split; [ exact Hin' | ].
  split; [ congruence | ]. split; [ congruence | ].
  split; [ rewrite Ht', Ht, app_assoc; reflexivity | ].
  apply Forall_app. split; assumption.
Qed.

Lemma declines_ret {A} (a : A) (Q : A -> Prop) :
  Q a -> declines (ret (D := D) a) Q.
Proof.
  intros Ha s Hno. exists a, s, []. rewrite app_nil_r.
  repeat split; try assumption. constructor.
Qed.

Lemma declines_get_self : declines (get_self (D := D)) (fun _ => True).
Proof.
  intros s Hno. exists (self s), s, []. rewrite app_nil_r.
  repeat split; try assumption. constructor.
Qed.

(** The answer read is never "y". *)
Lemma declines_ask (prompt : string) :
  declines (ask (D := D) prompt) (fun a => fst a = false).
Proof.
  intros s Hno. unfold ask, bind, emit, read_answer, ret. cbn [stdin].
  destruct (stdin s) as [| a rest] eqn:Hin.
  - eexists _, _, [Prompted prompt]. split; [ reflexivity | ].
    cbn [fst stdin self db trace].
    split; [ apply bool_decide_eq_false_2; exact empty_is_not_yes | ].
    repeat split; repeat constructor.
  - apply Forall_cons in Hno as [Ha Hrest].
    eexists _, _, [Prompted prompt]. split; [ reflexivity | ].
    cbn [fst stdin self db trace].
    split; [ apply bool_decide_eq_false_2; exact Ha | ].
    repeat split; try assumption. repeat constructor.
Qed.

Lemma declines_sync_when_differs (live declared : bool) (prompt : string)
    (action : M D unit) :
  declines (sync_when_differs live declared prompt action) (fun _ => True).
Proof.
  unfold sync_when_differs.
  destruct (negb (Bool.eqb live declared)); [ | apply declines_ret; exact I ].
  apply (declines_bind _ _ _ _ (declines_ask prompt)).
  intros a Ha. rewrite Ha. apply declines_ret. exact I.
Qed.

Lemma declines_sync_field (schemaMap : gmap string schema) (field : Field)
    (pending : list Field) :
  declines (sync_field schemaMap field pending) (fun p => p = pending).
Proof.
  unfold sync_field. destruct (schemaMap !! name field) as [sc|].
  - destruct (drift_reasons field sc) as [reasons shouldChange].
    apply (declines_bind _ _ (fun _ => True)).
    { destruct shouldChange; [ | apply declines_ret; exact I ].
      apply (declines_bind _ _ _ _ (declines_ask _)).
      intros a Ha. rewrite Ha. apply declines_ret. exact I. }
    intros _ _.
    apply (declines_bind _ _ _ _ (declines_sync_when_differs _ _ _ _)). intros _ _.
    apply (declines_bind _ _ _ _ (declines_sync_when_differs _ _ _ _)). intros _ _.
    apply (declines_bind _ _ _ _ (declines_sync_when_differs _ _ _ _)). intros _ _.
    apply declines_ret. reflexivity.
  - apply (declines_bind _ _ _ _ (declines_ask _)).
    intros a Ha. rewrite Ha. apply declines_ret. reflexivity.
Qed.

Lemma declines_sync_fields (schemaMap : gmap string schema) (fields : list Field) :
  forall pending,
    declines (sync_fields schemaMap fields pending) (fun p => p = pending).
Proof.
  induction fields as [| field rest IH]; intros pending; simpl.
  - apply declines_ret. reflexivity.
  - apply (declines_bind _ _ _ _ (declines_sync_field schemaMap field pending)).
    intros p ->. apply IH.
Qed.

Lemma declines_remove_stale_fields (FieldTypeset : gmap string Field)
    (live : list schema) :
  declines (remove_stale_fields FieldTypeset live) (fun _ => True).
Proof.
  induction live as [| sc rest IH]; simpl.
  - apply declines_ret. exact I.
  - apply (declines_bind _ _ (fun _ => True)); [ | intros _ _; exact IH ].
    destruct (FieldTypeset !! Schema.field sc); [ apply declines_ret; exact I | ].
    apply (declines_bind _ _ _ _ (declines_ask _)).
    intros a Ha. rewrite Ha, andb_false_r. apply declines_ret. exact I.
Qed.

Lemma declines_syncTableSchema :
  declines (syncTableSchema (D := D)) (fun _ => True).
Proof.
  unfold syncTableSchema.
  apply (declines_bind _ _ (fun p => p = [])).
  - unfold compare_and_remove.
    apply (declines_bind _ _ _ _ declines_get_self). intros m _.
    apply (declines_bind _ _ _ _ (declines_sync_fields _ _ [])). intros p ->.
    apply (declines_bind _ _ _ _ (declines_remove_stale_fields _ _)). intros _ _.
    apply declines_ret. reflexivity.
  - intros p ->. simpl. apply declines_ret. exact I.
Qed.
End Declined.

(** When no pending answer is "y" (the answer to a question asked after
    the input ran out is empty), a pass of [syncTableSchema] returns having
    sent no statement: it only asked, and the database and the receiver
    are as they were. *)
Theorem declined_pass_sends_nothing {D : Type} `{Database D} `{GoLib}
    (s : State D) :
  ~ is_yes EmptyString ->
  Forall (fun a => ~ is_yes a) (stdin s) ->
  exists s' evs,
    syncTableSchema s = Returned tt s' /\
    self s' = self s /\ db s' = db s /\
    trace s' = (trace s ++ evs)%list /\ Forall is_prompt evs.
Proof.
  intros Hempty Hno.
  destruct (declines_syncTableSchema Hempty s Hno)
    as ([] & s' & evs & Hrun & _ & _ & Hself & Hdb & Ht & Hev).
  exists s', evs. repeat split; assumption.
Qed.

Lemma declined_pass_sends_nothing_witness :
  exists s' evs,
    @syncTableSchema _ _ AsciiGo counters_declined = Returned tt s' /\
    self s' = self counters_declined /\ db s' = db counters_declined /\
    trace s' = (trace counters_declined ++ evs)%list /\ Forall is_prompt evs.
Proof.
  apply (@declined_pass_sends_nothing MemDB _ AsciiGo counters_declined).
  - vm_compute. discriminate.
  - repeat constructor. vm_compute. discriminate.
Defined.

(** ** The keys of the fetched rows *)

Section FetchKeys.
Context {D : Type} `{Database D}.

Lemma fetch_rows_keys (pk : Field) (rows : list (error + Result)) :
  forall (results results' : Results) (s s' : State D),
    primary (self s) = Some pk ->
    fetch_rows rows results s = Returned (inr results') s' ->
    forall k row, results' !! k = Some row ->
      results !! k = Some row
      \/ (k = default ANil (row !! name pk) /\ inr row ∈ rows).
Proof.
  induction rows as [| [e | r] rest IH]; intros results results' s s' Hpk Hrun k row Hk;
    simpl in Hrun.
  - inversion Hrun. subst. left. exact Hk.
  - discriminate Hrun.
  - unfold bind in Hrun. rewrite (GetPrimaryKey_Some s pk Hpk) in Hrun.
    destruct (IH _ _ _ _ Hpk Hrun k row Hk) as [Hin | [Hkey Hin]].
    + apply lookup_insert_Some in Hin as [[<- <-] | [_ Hin]].
      * right. split; [ reflexivity | apply list_elem_of_here ].
      * left. exact Hin.
    + right. split; [ exact Hkey | apply list_elem_of_further, Hin ].
Qed.
End FetchKeys.

(** Every entry of what [Fetch] returns is a row the database returned,
    filed under the value of its primary-key column, or under nil when the
    row has no such column: rows that agree on that value share one
    entry. *)
Theorem Fetch_files_rows_by_key {D : Type} `{Database D}
    (s s' : State D) (pk : Field) (results : Results) :
  primary (self s) = Some pk ->
  Fetch s = Returned (inr results) s' ->
  forall k row, results !! k = Some row ->
    k = default ANil (row !! name pk)
    /\ exists rows rows_err,
         db_select_all (db s) (TableName (self s)) = inr (rows, rows_err)
         /\ inr row ∈ rows.
Proof.
  intros Hpk. unfold Fetch. unfold bind at 1. unfold Ping.
  destruct (db_Ping (db s)); [ discriminate | ].
  unfold bind at 1. unfold get_self. unfold bind at 1. unfold query.
  destruct (db_select_all (db s) (TableName (self s))) as [e | [rows rows_err]];
    [ discriminate | ].
  unfold bind at 1.
  destruct (fetch_rows rows ∅ s) as [[e | res] s1 | msg s1 | s1] eqn:Hrows;
    try discriminate.
  destruct rows_err; [ discriminate | ].
  intros Hx k row Hk. inversion Hx. subst.
  destruct (fetch_rows_keys pk rows ∅ results s s' Hpk Hrows k row Hk)
    as [Hin | [Hkey Hin]].
  - rewrite lookup_empty in Hin. discriminate Hin.
  - split; [ exact Hkey | exists rows, None; split; [ reflexivity | exact Hin ] ].
Qed.

Lemma Fetch_files_rows_by_key_witness :
  AInt64 0 = default ANil (row_zero !! name Id_field)
  /\ exists rows rows_err,
       db_select_all (db counters_zero) (TableName (self counters_zero))
       = inr (rows, rows_err)
       /\ inr row_zero ∈ rows.
Proof.
  apply (Fetch_files_rows_by_key counters_zero counters_zero Id_field
           {[ AInt64 0 := row_zero ]}).
  - reflexivity.
  - vm_compute. reflexivity.
  - apply lookup_singleton_eq.
Defined.

(** ** What a pass of the reconciler may send *)

Section WithinDrift.
Context {D : Type} `{Database D} `{GoLib}.

Lemma build_FieldTypeset_None (fields : list Field) (c : string) :
  build_FieldTypeset fields !! c = None -> c ∉ map name fields.
Proof.
  unfold build_FieldTypeset.
  assert (Hgen : forall acc : gmap string Field,
            fold_left (fun acc f => <[name f := f]> acc) fields acc !! c = None ->
            acc !! c = None /\ c ∉ map name fields).
  { induction fields as [| f rest IH]; intros acc Hnone; simpl in *.
    - split; [ exact Hnone | apply not_elem_of_nil ].
    - destruct (IH _ Hnone) as [Hacc Hrest].
      apply lookup_insert_None in Hacc as [Hacc Hne].
      split; [ exact Hacc | ].
      apply not_elem_of_cons. split; [ congruence | exact Hrest ]. }
  intros Hnone. exact (proj2 (Hgen ∅ Hnone)).
Qed.

Variable m : meta.

Lemma emits_within_modifyDBField (field : Field) :
  field ∈ declared_fields m ->
  is_Some (build_schemaMap (schemas m) !! name field) ->
  emits (within_drift m) (modifyDBField field).
Proof.
  intros Hin Hsome. unfold modifyDBField.
  apply emits_bind; [ apply emits_get_self | intros m' ].
  apply emits_bind; [ apply emits_Ping | intros p ].
  destruct p; [ apply emits_panic | ].
  apply emits_bind; [ apply emits_Exec; split; assumption | intros r ].
  destruct r; [ apply emits_panic | apply emits_ret ].
Qed.

Lemma emits_within_index (field : Field) (sc : schema) :
  emits (within_drift m) (syncUniqueIndex field sc)
  /\ emits (within_drift m) (syncPrimaryKey field sc)
  /\ emits (within_drift m) (syncIndex field sc).
Proof.
  repeat split;
    unfold syncUniqueIndex, syncPrimaryKey, syncIndex, Exec_logged;
    repeat emits_step.
Qed.

Lemma emits_within_sync_when_differs (live declared : bool) (prompt : string)
    (action : M D unit) :
  emits (within_drift m) action ->
  emits (within_drift m) (sync_when_differs live declared prompt action).
Proof.
  intros Ha. unfold sync_when_differs.
  destruct (negb (Bool.eqb live declared)); [ | apply emits_ret ].
  apply emits_bind; [ apply emits_ask; exact I | intros a ].
  destruct (fst a); [ exact Ha | apply emits_ret ].
Qed.

Lemma emits_within_sync_field (field : Field) (pending : list Field) :
  field ∈ declared_fields m ->
  emits (within_drift m) (sync_field (build_schemaMap (schemas m)) field pending).
Proof.
  intros Hin. unfold sync_field.
  destruct (build_schemaMap (schemas m) !! name field) as [sc|] eqn:Hsc.
  - destruct (emits_within_index field sc) as (Hu & Hp & Hi).
    destruct (drift_reasons field sc) as [reasons shouldChange].
    apply emits_bind; [ | intros _ ].
    { destruct shouldChange; [ | apply emits_ret ].
      apply emits_bind; [ apply emits_ask; exact I | intros a ].
      destruct (fst a); [ | apply emits_ret ].
      apply emits_within_modifyDBField; [ exact Hin | ].
      rewrite Hsc. eexists. reflexivity. }
    apply emits_bind; [ apply emits_within_sync_when_differs, Hu | intros _ ].
    apply emits_bind; [ apply emits_within_sync_when_differs, Hp | intros _ ].
    apply emits_bind; [ apply emits_within_sync_when_differs, Hi | intros _ ].
    apply emits_ret.
  - apply emits_bind; [ apply emits_ask; exact I | intros a ].
    destruct (fst a); apply emits_ret.
Qed.

Lemma emits_within_sync_fields (fields : list Field) :
  (forall f, f ∈ fields -> f ∈ declared_fields m) ->
  forall pending,
    emits (within_drift m) (sync_fields (build_schemaMap (schemas m)) fields pending).
Proof.
  induction fields as [| field rest IH]; intros Hsub pending; simpl.
  - apply emits_ret.
  - apply emits_bind.
    + apply emits_within_sync_field, Hsub, list_elem_of_here.
    + intros p. apply IH. intros f Hf. apply Hsub, list_elem_of_further, Hf.
Qed.

Lemma emits_within_remove_stale_fields (live : list schema) :
  (forall sc, sc ∈ live -> sc ∈ schemas m) ->
  emits (within_drift m)
    (remove_stale_fields (build_FieldTypeset (declared_fields m)) live).
Proof.
  induction live as [| sc rest IH]; intros Hsub; simpl.
  - apply emits_ret.
  - apply emits_bind.
    2:{ intros _. apply IH. intros sc' Hsc'. apply Hsub, list_elem_of_further, Hsc'. }
    destruct (build_FieldTypeset (declared_fields m) !! Schema.field sc) eqn:Hset;
      [ apply emits_ret | ].
    apply emits_bind; [ apply emits_ask; exact I | intros a ].
    destruct (snd a && fst a); [ | apply emits_ret ].
    unfold removeDBField.
    apply emits_bind; [ apply emits_get_self | intros m' ].
    apply emits_bind; [ apply emits_Ping | intros p ].
    destruct p; [ apply emits_panic | ].
    apply emits_bind; [ | intros r; destruct r; [ apply emits_panic | apply emits_ret ] ].
    apply emits_Exec. split.
    + apply list_elem_of_fmap. exists sc.
      split; [ reflexivity | apply Hsub, list_elem_of_here ].
    + apply build_FieldTypeset_None, Hset.
Qed.

Lemma emits_within_add_pending_fields (pending : list Field) :
  (forall f, f ∈ pending -> f ∈ missing_fields m) ->
  emits (within_drift m) (add_pending_fields (D := D) pending).
Proof.
  induction pending as [| field rest IH]; intros Hsub; simpl.
  - apply emits_ret.
  - apply emits_bind.
    2:{ intros _. apply IH. intros f Hf. apply Hsub, list_elem_of_further, Hf. }
    unfold addField.
    apply emits_bind; [ apply emits_get_self | intros m' ].
    apply emits_bind; [ apply emits_Ping | intros p ].
    destruct p; [ apply emits_panic | ].
    apply emits_bind; [ | intros r; destruct r; [ apply emits_panic | apply emits_ret ] ].
    apply emits_Exec.
    pose proof (Hsub field (list_elem_of_here _ _)) as Hmiss.
    unfold missing_fields in Hmiss. apply list_elem_of_filter in Hmiss.
    destruct Hmiss as [Hnone Hin]. split; assumption.
Qed.
End WithinDrift.

(** Whatever the operator answers and the database does, a pass of
    [syncTableSchema] adds only declared fields for which the snapshot has
    no column, changes only declared fields for which it has one, and
    drops only live columns that no declared field names; it sends no
    INSERT, UPDATE or DELETE. *)
Theorem pass_stays_within_drift {D : Type} `{Database D} `{GoLib}
    (s : State D) :
  exists evs,
    trace (final_state (syncTableSchema s)) = (trace s ++ evs)%list
    /\ Forall (within_drift (self s)) evs.
Proof.
  assert (Hfirst : emits (within_drift (self s))
            (pending <-
               sync_fields (build_schemaMap (schemas (self s)))
                 (declared_fields (self s)) [] ;;
             remove_stale_fields (build_FieldTypeset (declared_fields (self s)))
               (schemas (self s)) ;;;
             ret pending)).
  { apply emits_bind; [ apply emits_within_sync_fields; auto | intros pending ].
    apply emits_bind; [ apply emits_within_remove_stale_fields; auto | intros _ ].
    apply emits_ret. }
  destruct (Hfirst s) as (evs1 & Ht1 & He1).
  unfold syncTableSchema. unfold bind at 1.
  assert (Hcr : compare_and_remove s
                = (pending <-
                     sync_fields (build_schemaMap (schemas (self s)))
                       (declared_fields (self s)) [] ;;
                   remove_stale_fields
                     (build_FieldTypeset (declared_fields (self s)))
                     (schemas (self s)) ;;;
                   ret pending) s) by reflexivity.
  destruct (compare_and_remove s) as [pending s1 | msg s1 | s1] eqn:Hrun.
  - rewrite <- Hcr in Ht1. simpl in Ht1.
    destruct (compare_and_remove_collects s s1 pending Hrun) as (s0 & Hfields).
    destruct (sync_fields_sublist _ _ _ _ _ _ Hfields) as (l & -> & Hsub).
    destruct (emits_within_add_pending_fields (self s) l) with (s := s1)
      as (evs2 & Ht2 & He2).
    { intros f Hf. unfold missing_fields. eapply elem_of_sublist; eassumption. }
    exists (evs1 ++ evs2)%list. simpl in Ht2 |- *. rewrite Ht2, Ht1, app_assoc.
    split; [ reflexivity | apply Forall_app; split; assumption ].
  - rewrite <- Hcr in Ht1. exists evs1. split; assumption.
  - rewrite <- Hcr in Ht1. exists evs1. split; assumption.
Qed.
